(** * whale: the container picker (whale.go)

    A shallow embedding of the record parser [convertStringToContainer], of
    the two selection menus ([containerChoice], [actionChoice]) with their
    bubbletea [Update] methods, of the selection drivers [chooseContainer]
    and [chooseAction], and of the action resolver [doAction].

    Conventions.
    - A Go [int] is a [Z] in the 64-bit signed range; [++] and [--] wrap.
    - A Go [string] is a [string] of bytes.
    - A Go run-time panic is an [outcome] of its own: the functions of
      whale.go that index slices have no error result, so a failed index
      is the only way they fail.
    - Effects ([println], [os.Exit], the [pbcopy] process) are recorded in
      an explicit trace. *)

From Stdlib Require Import ZArith List String Ascii Bool Lia.
Import ListNotations.
Local Open Scope string_scope.
Local Open Scope list_scope.
Local Open Scope Z_scope.

(** ** Go integers *)

Module GoInt.

Definition min_int : Z := - 2 ^ 63.
Definition max_int : Z := 2 ^ 63 - 1.

(** Two's-complement wrap-around of a 64-bit signed result. *)
Definition wrap (z : Z) : Z := (z + 2 ^ 63) mod 2 ^ 64 - 2 ^ 63.

Definition add (a b : Z) : Z := wrap (a + b).
Definition sub (a b : Z) : Z := wrap (a - b).

(** [len(s)] of a slice. *)
Definition len {A : Type} (s : list A) : Z := Z.of_nat (List.length s).

(** A slice the Go runtime can hold: its length is an [int]. *)
Definition fits {A : Type} (s : list A) : Prop := len s <= max_int.

End GoInt.

(** ** Panics and outcomes *)

(** The two run-time errors whale.go can raise:
    [index out of range [i] with length n] and
    [slice bounds out of range [:hi] with capacity n]. *)
Inductive panic : Type :=
| IndexOutOfRange (i n : Z)
| SliceBoundsOutOfRange (hi n : Z).

Inductive outcome (A : Type) : Type :=
| Returned (a : A)
| Panicked (p : panic).
Arguments Returned {A} a.
Arguments Panicked {A} p.

Definition bind {A B : Type} (o : outcome A) (k : A -> outcome B) : outcome B :=
  match o with
  | Returned a => k a
  | Panicked p => Panicked p
  end.

Notation "x <- o ;; k" := (bind o (fun x => k))
  (at level 61, o at next level, right associativity).

(** [s[i]]: the bounds check of the runtime, then the element. *)
Definition index {A : Type} (s : list A) (i : Z) : outcome A :=
  if (i <? 0) || (GoInt.len s <=? i) then Panicked (IndexOutOfRange i (GoInt.len s))
  else match nth_error s (Z.to_nat i) with
       | Some a => Returned a
       | None => Panicked (IndexOutOfRange i (GoInt.len s))
       end.

(** [s[lo:hi]] for constants [lo <= hi], on a slice whose capacity is its
    length (what [strings.Fields] allocates). *)
Definition slice {A : Type} (s : list A) (lo hi : nat) : outcome (list A) :=
  if GoInt.len s <? Z.of_nat hi
  then Panicked (SliceBoundsOutOfRange (Z.of_nat hi) (GoInt.len s))
  else Returned (firstn (hi - lo) (skipn lo s)).

(** ** The strings package *)

Module Strings.

(** Width in bytes of the white-space rune ([unicode.IsSpace]) that
    starts [s], 0 when [s] does not start with one.  One byte: tab, line
    feed, vertical tab, form feed, carriage return, space.  Two bytes:
    U+0085 and U+00A0.  Three bytes: U+1680, U+2000 to U+200A, U+2028,
    U+2029, U+202F, U+205F and U+3000.  A lead byte is never a
    continuation byte, so matching the encoded prefix is what decoding
    rune by rune finds. *)
Definition space_width (s : string) : nat :=
  match s with
  | String c0 r0 =>
      let b0 := nat_of_ascii c0 in
      if (Nat.leb 9 b0 && Nat.leb b0 13) || Nat.eqb b0 32 then 1%nat
      else match r0 with
           | String c1 r1 =>
               let b1 := nat_of_ascii c1 in
               if Nat.eqb b0 194 && (Nat.eqb b1 133 || Nat.eqb b1 160) then 2%nat
               else match r1 with
                    | String c2 _ =>
                        let b2 := nat_of_ascii c2 in
                        if Nat.eqb b0 225 && Nat.eqb b1 154 && Nat.eqb b2 128 then 3%nat
                        else if Nat.eqb b0 226 && Nat.eqb b1 128
                                && (Nat.leb 128 b2 && Nat.leb b2 138
                                    || Nat.eqb b2 168 || Nat.eqb b2 169 || Nat.eqb b2 175)
                             then 3%nat
                        else if Nat.eqb b0 226 && Nat.eqb b1 129 && Nat.eqb b2 159 then 3%nat
                        else if Nat.eqb b0 227 && Nat.eqb b1 128 && Nat.eqb b2 128 then 3%nat
                        else 0%nat
                    | EmptyString => 0%nat
                    end
           | EmptyString => 0%nat
           end
  | EmptyString => 0%nat
  end.

(** Closes the field under construction, if there is one. *)
Definition flush (cur : string) (rest : list string) : list string :=
  match cur with
  | EmptyString => rest
  | _ => cur :: rest
  end.

(** The scan of [Fields]: [skip] counts the bytes still to drop of the
    white-space rune being crossed, [cur] is the field read so far. *)
Fixpoint fields_from (s : string) (skip : nat) (cur : string) : list string :=
  match s with
  | EmptyString => flush cur []
  | String c s' =>
      match skip with
      | S k => fields_from s' k cur
      | O =>
          match space_width s with
          | O => fields_from s' 0 (cur ++ String c EmptyString)%string
          | S k => flush cur (fields_from s' k EmptyString)
          end
      end
  end.

(** [strings.Fields]: the maximal runs of bytes between white space. *)
Definition Fields (s : string) : list string := fields_from s 0 EmptyString.

(** [strings.Join]. *)
Fixpoint Join (elems : list string) (sep : string) : string :=
  match elems with
  | [] => EmptyString
  | [e] => e
  | e :: rest => (e ++ sep ++ Join rest sep)%string
  end.

End Strings.

(** ** The record parser *)

Record Container : Type := mkContainer {
  ID : string;
  Image : string;
  Command : string;
  Created : string;
  Status : string;
  Ports : string;
  Name : string
}.

(** The body of [convertStringToContainer] after the line is split. *)
Definition containerOfFields (fields : list string) : outcome Container :=
  id <- index fields 0 ;;
  image <- index fields 1 ;;
  command <- index fields 2 ;;
  created3 <- slice fields 3 6 ;;
  let created := Strings.Join created3 " " in
  let ports := "" in
  status <- (if 10 <? GoInt.len fields
             then (s4 <- slice fields 6 10 ;; Returned (Strings.Join s4 " "))
             else Returned "") ;;
  name <- index fields (GoInt.sub (GoInt.len fields) 1) ;;
  Returned {| ID := id; Image := image; Command := command; Created := created;
              Status := status; Ports := ports; Name := name |}.

Definition convertStringToContainer (str : string) : outcome Container :=
  containerOfFields (Strings.Fields str).

(** ** The bubbletea runtime, as whale.go uses it

    bubbletea is a library outside whale.go.  What whale.go relies on is
    modelled here: the program calls [Init], then feeds the events to
    [Update] one by one, and [Run] returns the model in hand once a quit
    command was issued or the event source failed.  A panic of [Update]
    does not escape [Run]: the runtime recovers it and [Run] returns an
    error. *)

(** A Go [error], by its message. *)
Definition error : Type := string.

Module tea.

(** A message is a key press, known by what [KeyMsg.String()] gives
    ("up", "enter", "q", "ctrl+c", ...), or anything else the runtime
    delivers (window size, focus, ...). *)
Inductive Msg : Type :=
| KeyMsg (key : string)
| OtherMsg.

(** A command is [nil] ([None]) or [tea.Quit]. *)
Inductive Cmd : Type := Quit.

(** The [tea.Model] interface; [View] only renders and is left out. *)
Class Model (M : Type) : Type := {
  Init : M -> option Cmd;
  Update : M -> Msg -> outcome (M * option Cmd)
}.

(** What the event source hands to the loop: a message, or a failure of
    the terminal. *)
Inductive input : Type :=
| Deliver (msg : Msg)
| Fail (err : error).

(** The program: still reading events, or stopped with what [Run]
    returns, a model and an error.  whale.go never looks at the model that
    comes with an error. *)
Inductive program (M : Type) : Type :=
| Running (m : M)
| Stopped (m : M) (err : option error).
Arguments Running {M} m.
Arguments Stopped {M} m err.

(** The error [Run] returns after it recovered a panic: [ErrProgramKilled]
    wrapping [ErrProgramPanic]. *)
Definition ErrProgramPanic : error :=
  "program was killed: program experienced a panic".

Definition after_cmd {M : Type} (m : M) (cmd : option Cmd) : program M :=
  match cmd with
  | Some Quit => Stopped m None
  | None => Running m
  end.

(** One turn of the event loop.  Events are handled one at a time and a
    quit command takes effect before the next event is read.  When
    [Update] panics the loop ends and [Run] returns [ErrProgramPanic]. *)
Definition deliver {M : Type} `{Model M} (st : program M) (i : input) : program M :=
  match st with
  | Running m =>
      match i with
      | Deliver msg =>
          match Update m msg with
          | Returned (m', cmd) => after_cmd m' cmd
          | Panicked _ => Stopped m (Some ErrProgramPanic)
          end
      | Fail err => Stopped m (Some err)
      end
  | _ => st
  end.

(** [NewProgram(m).Run()] on the events [inputs]; [Running] at the end
    means that [Run] is blocked on the next event. *)
Definition Run {M : Type} `{Model M} (m : M) (inputs : list input) : program M :=
  fold_left deliver inputs (after_cmd m (Init m)).

End tea.

(** What a call of an effectful function comes to. *)
Inductive call (A : Type) : Type :=
| Done (a : A)
| Abort (p : panic)
| Exit (code : Z)
| Pending.
Arguments Done {A} a.
Arguments Abort {A} p.
Arguments Exit {A} code.
Arguments Pending {A}.

(** ** The container menu *)

Module containerChoice.

Record t : Type := mk {
  containers : list string;
  cursor : Z;
  selectedContainer : string
}.

Definition with_cursor (menu : t) (c : Z) : t :=
  {| containers := containers menu; cursor := c;
     selectedContainer := selectedContainer menu |}.

Definition with_selectedContainer (menu : t) (s : string) : t :=
  {| containers := containers menu; cursor := cursor menu;
     selectedContainer := s |}.

Definition Init (menu : t) : option tea.Cmd := None.

Definition Update (menu : t) (msg : tea.Msg) : outcome (t * option tea.Cmd) :=
  match msg with
  | tea.KeyMsg key =>
      if String.eqb key "q" || String.eqb key "esc" || String.eqb key "ctrl+c" then
        Returned (menu, Some tea.Quit)
      else if String.eqb key "up" then
        let menu := with_cursor menu (GoInt.sub (cursor menu) 1) in
        let menu := if cursor menu <? 0
                    then with_cursor menu (GoInt.sub (GoInt.len (containers menu)) 1)
                    else menu in
        Returned (menu, None)
      else if String.eqb key "down" then
        let menu := with_cursor menu (GoInt.add (cursor menu) 1) in
        let menu := if GoInt.len (containers menu) <=? cursor menu
                    then with_cursor menu 0
                    else menu in
        Returned (menu, None)
      else if String.eqb key "enter" then
        item <- index (containers menu) (cursor menu) ;;
        Returned (with_selectedContainer menu item, Some tea.Quit)
      else Returned (menu, None)
  | tea.OtherMsg => Returned (menu, None)
  end.

End containerChoice.

#[export] Instance containerChoice_Model : tea.Model containerChoice.t :=
  {| tea.Init := containerChoice.Init; tea.Update := containerChoice.Update |}.

Definition initialContainerModel (containers : list string) : containerChoice.t :=
  {| containerChoice.containers := containers;
     containerChoice.cursor := GoInt.sub (GoInt.len containers) 1;
     containerChoice.selectedContainer := "" |}.

(** [chooseContainer] on the events the terminal will produce.  While
    [Run] waits for an event the call has not returned ([Pending]). *)
Definition chooseContainer (containers : list string) (inputs : list tea.input)
  : call (string * option error) :=
  match tea.Run (initialContainerModel containers) inputs with
  | tea.Stopped _ (Some err) => Done ("", Some err)
  | tea.Stopped finalModel None => Done (containerChoice.selectedContainer finalModel, None)
  | tea.Running _ => Pending
  end.

(** ** The action menu *)

Module actionChoice.

Record t : Type := mk {
  actions : list string;
  cursor : Z;
  selectedAction : string;
  selectedContainer : Container
}.

Definition with_cursor (menu : t) (c : Z) : t :=
  {| actions := actions menu; cursor := c;
     selectedAction := selectedAction menu;
     selectedContainer := selectedContainer menu |}.

Definition with_selectedAction (menu : t) (s : string) : t :=
  {| actions := actions menu; cursor := cursor menu;
     selectedAction := s;
     selectedContainer := selectedContainer menu |}.

Definition Init (menu : t) : option tea.Cmd := None.

Definition Update (menu : t) (msg : tea.Msg) : outcome (t * option tea.Cmd) :=
  match msg with
  | tea.KeyMsg key =>
      if String.eqb key "q" || String.eqb key "esc" || String.eqb key "ctrl+c" then
        Returned (menu, Some tea.Quit)
      else if String.eqb key "up" then
        let menu := with_cursor menu (GoInt.sub (cursor menu) 1) in
        let menu := if cursor menu <? 0
                    then with_cursor menu (GoInt.sub (GoInt.len (actions menu)) 1)
                    else menu in
        Returned (menu, None)
      else if String.eqb key "down" then
        let menu := with_cursor menu (GoInt.add (cursor menu) 1) in
        let menu := if GoInt.len (actions menu) <=? cursor menu
                    then with_cursor menu 0
                    else menu in
        Returned (menu, None)
      else if String.eqb key "enter" then
        item <- index (actions menu) (cursor menu) ;;
        Returned (with_selectedAction menu item, Some tea.Quit)
      else Returned (menu, None)
  | tea.OtherMsg => Returned (menu, None)
  end.

End actionChoice.

#[export] Instance actionChoice_Model : tea.Model actionChoice.t :=
  {| tea.Init := actionChoice.Init; tea.Update := actionChoice.Update |}.

Definition initialActionModel (container : Container) : actionChoice.t :=
  let actions := ["Exit"; "Copy container ID"] in
  {| actionChoice.actions := actions;
     actionChoice.cursor := GoInt.sub (GoInt.len actions) 1;
     actionChoice.selectedAction := "";
     actionChoice.selectedContainer := container |}.

Definition chooseAction (container : Container) (inputs : list tea.input)
  : call (string * option error) :=
  match tea.Run (initialActionModel container) inputs with
  | tea.Stopped _ (Some err) => Done ("", Some err)
  | tea.Stopped finalModel None => Done (actionChoice.selectedAction finalModel, None)
  | tea.Running _ => Pending
  end.

(** ** The action resolver *)

(** What the resolver does to the outside: a line on standard error, an
    error value printed by the builtin [println], one run of [pbcopy] with
    the given standard input. *)
Inductive effect : Type :=
| Println (s : string)
| PrintlnError (err : error)
| RunPbcopy (stdin : string).

Section Resolver.

(** [cmd.Run()] of [exec.Command("pbcopy")] on a given standard input:
    [None] when the process succeeds. *)
Variable pbcopy : string -> option error.

Definition copyContainerId (container : string) : list effect * option error :=
  match pbcopy container with
  | Some err =>
      ([RunPbcopy container], Some ("error copying container ID: " ++ err)%string)
  | None =>
      ([RunPbcopy container; Println "Container ID copied to clipboard"], None)
  end.

Definition doAction (action : string) (container : Container)
  : list effect * call (option error) :=
  if String.eqb action "Exit" then ([], Exit 0)
  else if String.eqb action "Copy container ID" then
    let containerID := ID container in
    let (trace, err) := copyContainerId containerID in
    match err with
    | Some e => (trace ++ [PrintlnError e], Exit 1)
    | None => (trace, Done None)
    end
  else ([], Done None).

End Resolver.

(** ** More of the strings package: [TrimSpace] and [Split] *)

(** Width in bytes of the white-space rune that ends a string, given the
    bytes of the string last to first; 0 when it does not end with one.
    The encodings are those of [Strings.space_width], read backwards. *)
Definition space_width_last (r : string) : nat :=
  match r with
  | String c0 r0 =>
      let b0 := nat_of_ascii c0 in
      if (Nat.leb 9 b0 && Nat.leb b0 13) || Nat.eqb b0 32 then 1%nat
      else match r0 with
           | String c1 r1 =>
               let b1 := nat_of_ascii c1 in
               if Nat.eqb b1 194 && (Nat.eqb b0 133 || Nat.eqb b0 160) then 2%nat
               else match r1 with
                    | String c2 _ =>
                        let b2 := nat_of_ascii c2 in
                        if Nat.eqb b2 225 && Nat.eqb b1 154 && Nat.eqb b0 128 then 3%nat
                        else if Nat.eqb b2 226 && Nat.eqb b1 128
                                && (Nat.leb 128 b0 && Nat.leb b0 138
                                    || Nat.eqb b0 168 || Nat.eqb b0 169 || Nat.eqb b0 175)
                             then 3%nat
                        else if Nat.eqb b2 226 && Nat.eqb b1 129 && Nat.eqb b0 159 then 3%nat
                        else if Nat.eqb b2 227 && Nat.eqb b1 128 && Nat.eqb b0 128 then 3%nat
                        else 0%nat
                    | EmptyString => 0%nat
                    end
           | EmptyString => 0%nat
           end
  | EmptyString => 0%nat
  end.

(** Drops white-space runes from the front; [width] tells the width of the
    rune at the front, [skip] the bytes of it still to drop. *)
Fixpoint trim_front (width : string -> nat) (s : string) (skip : nat) : string :=
  match s with
  | EmptyString => EmptyString
  | String c s' =>
      match skip with
      | S k => trim_front width s' k
      | O =>
          match width s with
          | O => s
          | S k => trim_front width s' k
          end
      end
  end.

Definition reverse (s : string) : string :=
  string_of_list_ascii (List.rev (list_ascii_of_string s)).

(** [strings.TrimSpace]: the leading white space goes first, then the
    trailing white space of what is left. *)
Definition TrimSpace (s : string) : string :=
  let left := trim_front Strings.space_width s 0 in
  reverse (trim_front space_width_last (reverse left) 0).

(** The scan of [Split] for a separator that is not empty: [skip] counts
    the bytes still to drop of the separator being crossed, [cur] is the
    piece read so far. *)
Fixpoint split_from (s sep : string) (skip : nat) (cur : string) : list string :=
  match s with
  | EmptyString => [cur]
  | String c s' =>
      match skip with
      | S k => split_from s' sep k cur
      | O =>
          if String.prefix sep s
          then cur :: split_from s' sep (String.length sep - 1) EmptyString
          else split_from s' sep 0 (cur ++ String c EmptyString)%string
      end
  end.

(** [strings.Split] around a separator that is not empty (whale.go splits
    around the line feed): the pieces between the occurrences of [sep],
    leftmost first, always at least one piece. *)
Definition Split (s sep : string) : list string := split_from s sep 0 EmptyString.

Definition newline : string := String (ascii_of_nat 10) EmptyString.

(** ** The listing *)

(** The loop of [getContainers]: every line but the one at index 0 is
    appended. *)
Fixpoint collect_lines (i : Z) (lines containers : list string) : list string :=
  match lines with
  | [] => containers
  | line :: rest =>
      if i =? 0 then collect_lines (GoInt.add i 1) rest containers
      else collect_lines (GoInt.add i 1) rest (containers ++ [line])
  end.

(** [getContainers], given what [cmd.Output()] of [docker container ls -a]
    returns: the bytes written and the error. *)
Definition getContainers (docker_ls : string * option error) : list string * option error :=
  let (output, err) := docker_ls in
  match err with
  | Some e => ([], Some e)
  | None =>
      let lines := Split (TrimSpace output) newline in
      (collect_lines 0 lines [], None)
  end.

(** ** Rendering *)

Record ConfigUi : Type := mkConfigUi {
  CursorColor : string;
  BranchColor : string;
  ContainerSelectedColor : string;
  ActionSelectedColor : string
}.

Record Config : Type := mkConfig { Ui : ConfigUi }.

(** The escape byte, written [\033] in whale.go. *)
Definition esc : string := String (ascii_of_nat 27) EmptyString.

Section Rendering.

(** The global [config], as [loadConfig] left it. *)
Variable config : Config.

Definition renderCursor : string :=
  (esc ++ "[" ++ CursorColor (Ui config) ++ "m>" ++ esc ++ "[0m")%string.

Definition renderContainerSelected (container : string) (isSelected : bool) : string :=
  if isSelected
  then (esc ++ "[" ++ ContainerSelectedColor (Ui config) ++ "m" ++ container ++ esc ++ "[0m")%string
  else container.


(** The loop of [containerChoice.View]: [i] is the index of the first of
    [containers], [s] the frame so far. *)
Fixpoint containerChoice_rows (menu_cursor i : Z) (containers : list string) (s : string)
  : string :=
  match containers with
  | [] => s
  | container :: rest =>
      let cursor := " " in
      let s :=
        if menu_cursor =? i then
          let cursor := renderCursor in
          (s ++ (cursor ++ " " ++ renderContainerSelected container true ++ newline))%string
        else
          (s ++ (cursor ++ " " ++ renderContainerSelected container false ++ newline))%string in
      containerChoice_rows menu_cursor (GoInt.add i 1) rest s
  end.

Definition containerChoice_View (menu : containerChoice.t) : string :=
  let s := (esc ++ "[H" ++ esc ++ "[2J")%string in
  let s := (s ++ ("Choose a container:" ++ newline ++ newline))%string in
  containerChoice_rows (containerChoice.cursor menu) 0 (containerChoice.containers menu) s.



End Rendering.

(** ** The process: [main] and [flagMode] *)

(** What the process does to the outside: an [effect] of the resolver (a
    line of the builtin [println], a run of [pbcopy]), text written to
    standard output by [fmt], or a line of [println] made of a string and
    an error value.  The frames [View] draws are the business of the
    bubbletea runtime and are not recorded. *)
Inductive event : Type :=
| Eff (e : effect)
| Stdout (text : string)
| PrintlnWithError (s : string) (err : error).

(** A computation of the process: what it did, and what it came to. *)
Definition io (A : Type) : Type := list event * call A.

Definition io_ret {A : Type} (a : A) : io A := ([], Done a).

Definition io_bind {A B : Type} (m : io A) (k : A -> io B) : io B :=
  match m with
  | (t, Done a) => let (t', r) := k a in (t ++ t', r)
  | (t, Abort p) => (t, Abort p)
  | (t, Exit code) => (t, Exit code)
  | (t, Pending) => (t, Pending)
  end.

Declare Scope io_scope.
Delimit Scope io_scope with io.
Notation "x <- m ;; k" := (io_bind m (fun x => k))
  (at level 61, m at next level, right associativity) : io_scope.
Notation "m ;; k" := (io_bind m (fun _ => k))
  (at level 61, right associativity) : io_scope.

Definition emit (e : event) : io unit := ([e], Done tt).

(** The builtin [println] of one string. *)
Definition println (s : string) : io unit := emit (Eff (Println s)).

(** The builtin [println] of two strings: a space goes between them. *)
Definition println2 (s1 s2 : string) : io unit :=
  emit (Eff (Println (s1 ++ " " ++ s2)%string)).

(** [fmt.Println] of a string or of an error, which prints its message. *)
Definition fmt_Println (s : string) : io unit := emit (Stdout (s ++ newline)%string).

Definition os_Exit {A : Type} (code : Z) : io A := ([], Exit code).

Definition of_call {A : Type} (c : call A) : io A := ([], c).

Definition of_outcome {A : Type} (o : outcome A) : io A :=
  match o with
  | Returned a => io_ret a
  | Panicked p => ([], Abort p)
  end.

Definition of_resolver {A : Type} (r : list effect * call A) : io A :=
  (map Eff (fst r), snd r).

(** The verb [%-20s]: the string, then spaces up to twenty columns. *)
Fixpoint spaces (n : nat) : string :=
  match n with
  | O => EmptyString
  | S k => String " "%char (spaces k)
  end.

Definition pad_right (width : nat) (s : string) : string :=
  (s ++ spaces (width - String.length s))%string.

Definition printHelpManual : io unit :=
  (fmt_Println "Usage: whale [options]" ;;
   emit (Stdout ("  " ++ pad_right 20 "whale [--run | -r]" ++ " " ++ "Run the program"
                 ++ newline)%string) ;;
   emit (Stdout ("  " ++ pad_right 20 "whale [--help | -h]" ++ " "
                 ++ "Show this help message" ++ newline)%string))%io.

Definition debugPrintContainerInfos (container : Container) : io unit :=
  (println2 "Container id: " (ID container) ;;
   println2 "Container image: " (Image container) ;;
   println2 "Container command: " (Command container) ;;
   println2 "Container created: " (Created container) ;;
   println2 "Container status: " (Status container) ;;
   println2 "Container ports: " (Ports container) ;;
   println2 "Container name: " (Name container))%io.

(** Everything [main] takes from the outside. *)
Record world : Type := mkWorld {
  (** the error of [json.Unmarshal] on the embedded config.json *)
  json_Unmarshal : option error;
  (** the error of running [docker -v] *)
  docker_version : option error;
  (** the error of running [docker container ls] *)
  docker_container_ls : option error;
  (** output and error of [docker container ls -a] *)
  docker_container_ls_a : string * option error;
  (** [os.Args], the program name first *)
  os_Args : list string;
  (** the events of the container menu and those of the action menu *)
  container_events : list tea.input;
  action_events : list tea.input;
  (** [pbcopy] on a standard input *)
  pbcopy_run : string -> option error
}.

Definition loadConfig (w : world) : option error :=
  match json_Unmarshal w with
  | Some err => Some ("error parsing config file: " ++ err)%string
  | None => None
  end.

Definition isDockerInstalled (w : world) : bool :=
  match docker_version w with
  | None => true
  | Some _ => false
  end.

Definition isDockerRunning (w : world) : bool :=
  match docker_container_ls w with
  | None => true
  | Some _ => false
  end.

Definition flagMode (w : world) (containers : list string) : io unit :=
  (flag <- of_outcome (index (os_Args w) 1) ;;
   if String.eqb flag "--run" || String.eqb flag "-r" then
     chosen <- of_call (chooseContainer containers (container_events w)) ;;
     let (containerSelected, err) := chosen : string * option error in
     (match err with
      | Some _ => println "Error choosing container" ;; os_Exit 1
      | None => io_ret tt
      end) ;;
     container <- of_outcome (convertStringToContainer containerSelected) ;;
     chosen <- of_call (chooseAction container (action_events w)) ;;
     let (actionSelected, err) := chosen : string * option error in
     (match err with
      | Some _ => println "Error choosing action" ;; os_Exit 1
      | None => io_ret tt
      end) ;;
     println2 "Action selected: " actionSelected
   else if String.eqb flag "--help" || String.eqb flag "-h" then
     printHelpManual
   else if String.eqb flag "--version" || String.eqb flag "-v" then
     fmt_Println "0.0.1"
   else io_ret tt)%io.

(** [main]; returning from it ends the process with status 0. *)
Definition main (w : world) : io unit :=
  ((match loadConfig w with
    | Some err => fmt_Println err ;; os_Exit 1
    | None => io_ret tt
    end) ;;
   (if negb (isDockerInstalled w)
    then println "Docker is not installed" ;; os_Exit 1
    else io_ret tt) ;;
   (if negb (isDockerRunning w)
    then println "Docker is not running" ;; os_Exit 1
    else io_ret tt) ;;
   let (containers, err) := getContainers (docker_container_ls_a w) in
   (match err with
    | Some _ => println "Error getting containers" ;; os_Exit 1
    | None => io_ret tt
    end) ;;
   (if 1 <? GoInt.len (os_Args w)
    then flagMode w containers ;; os_Exit 0
    else io_ret tt) ;;
   chosen <- of_call (chooseContainer containers (container_events w)) ;;
   let (containerSelected, err) := chosen : string * option error in
   (match err with
    | Some e => emit (PrintlnWithError "Error choosing container" e) ;; os_Exit 1
    | None => io_ret tt
    end) ;;
   container <- of_outcome (convertStringToContainer containerSelected) ;;
   debugPrintContainerInfos container ;;
   chosen <- of_call (chooseAction container (action_events w)) ;;
   let (actionSelected, err) := chosen : string * option error in
   (match err with
    | Some e => emit (PrintlnWithError "Error choosing action" e) ;; os_Exit 1
    | None => io_ret tt
    end) ;;
   err <- of_resolver (doAction (pbcopy_run w) actionSelected container) ;;
   match err with
   | Some e => emit (PrintlnWithError "Error doing action" e) ;; os_Exit 1
   | None => io_ret tt
   end)%io.

(** ** Vocabulary of the properties *)

(** A key press, as an event of the program. *)
Definition key (k : string) : tea.input := tea.Deliver (tea.KeyMsg k).

(** The keys that cancel a menu. *)
Definition is_cancel (k : string) : bool :=
  String.eqb k "q" || String.eqb k "esc" || String.eqb k "ctrl+c".

(** An event that neither commits nor fails: any message but the enter key. *)
Definition quiet (i : tea.input) : bool :=
  match i with
  | tea.Deliver (tea.KeyMsg k) => negb (String.eqb k "enter")
  | tea.Deliver tea.OtherMsg => true
  | tea.Fail _ => false
  end.

(** The field assignment in the words of the specification, to be compared
    with [convertStringToContainer]: token 0, 1 and 2, then tokens 3 to 5
    and, past ten tokens, 6 to 9 joined by single spaces, the empty port
    text, and the last token. *)
Definition tok (fields : list string) (i : nat) : string := nth i fields "".

Definition positional (fields : list string) (c : Container) : Prop :=
  ID c = tok fields 0 /\
  Image c = tok fields 1 /\
  Command c = tok fields 2 /\
  Created c = (tok fields 3 ++ " " ++ tok fields 4 ++ " " ++ tok fields 5)%string /\
  Status c = (if 10 <? GoInt.len fields
              then (tok fields 6 ++ " " ++ tok fields 7 ++ " "
                    ++ tok fields 8 ++ " " ++ tok fields 9)%string
              else "") /\
  Ports c = "" /\
  Name c = tok fields (List.length fields - 1).

(** The cursor after "up" and after "down" in a menu of [n] items, as both
    [Update] methods compute it. *)
Definition cursor_up (n c : Z) : Z :=
  let c' := GoInt.sub c 1 in if c' <? 0 then GoInt.sub n 1 else c'.

Definition cursor_down (n c : Z) : Z :=
  let c' := GoInt.add c 1 in if n <=? c' then 0 else c'.

(** The menu a program holds. *)
Definition held {M : Type} (st : tea.program M) : option M :=
  match st with
  | tea.Running m | tea.Stopped m _ => Some m
  end.

(** What a program over the empty list can hold: no items, cursor -1 or 0,
    no selection. *)
Definition empty_menu_state (st : tea.program containerChoice.t) : Prop :=
  match held st with
  | Some menu =>
      containerChoice.containers menu = []
      /\ -1 <= containerChoice.cursor menu <= 0
      /\ containerChoice.selectedContainer menu = ""
  | None => True
  end.

(** The program has not failed and its menu has the empty selection. *)
Definition container_unselected (st : tea.program containerChoice.t) : Prop :=
  match st with
  | tea.Running menu | tea.Stopped menu None => containerChoice.selectedContainer menu = ""
  | _ => False
  end.

Definition action_unselected (st : tea.program actionChoice.t) : Prop :=
  match st with
  | tea.Running menu | tea.Stopped menu None => actionChoice.selectedAction menu = ""
  | _ => False
  end.

(** Concrete inputs. *)
Definition tab : string := String (ascii_of_nat 9) EmptyString.

Definition nbsp : string := String (ascii_of_nat 194) (String (ascii_of_nat 160) EmptyString).

Definition nginx_line : string :=
  "abc123 nginx:latest cmd 2 days ago Up 2 days 0.0.0.0:80->80/tcp web".

Definition three_containers : containerChoice.t :=
  {| containerChoice.containers := ["web"; "db"; "cache"];
     containerChoice.cursor := 2;
     containerChoice.selectedContainer := "" |}.

Definition two_of_three : containerChoice.t :=
  {| containerChoice.containers := ["web"; "db"; "cache"];
     containerChoice.cursor := 1;
     containerChoice.selectedContainer := "" |}.

Definition no_container : Container :=
  {| ID := ""; Image := ""; Command := ""; Created := ""; Status := ""; Ports := "";
     Name := "" |}.

Definition abc123 : Container :=
  {| ID := "abc123"; Image := "nginx:latest"; Command := "cmd"; Created := "2 days ago";
     Status := ""; Ports := ""; Name := "web" |}.

(** A clipboard that always fails. *)
Definition broken_pbcopy (stdin : string) : option error := Some "exit status 1".

(** The case analysis of [Update] on the key. *)
Ltac split_keys k :=
  destruct (String.eqb k "q"); [reflexivity|];
  destruct (String.eqb k "esc"); [reflexivity|];
  destruct (String.eqb k "ctrl+c"); [reflexivity|];
  destruct (String.eqb k "up");
    [cbv zeta; match goal with |- context [?a <? ?b] => destruct (a <? b) end; reflexivity|];
  destruct (String.eqb k "down");
    [cbv zeta; match goal with |- context [?a <=? ?b] => destruct (a <=? b) end; reflexivity|];
  destruct (String.eqb k "enter"); reflexivity.

(** ** Vocabulary of the further properties *)

(** A call returns when it hands a result back to its caller.  An error,
    in Go, is such a result; a call that panics hands back nothing. *)
Definition returns {A : Type} (o : outcome A) : Prop := exists a : A, o = Returned a.

(** The six ASCII white-space bytes. *)
Definition is_ascii_space (c : ascii) : bool :=
  let b := nat_of_ascii c in
  (Nat.leb 9 b && Nat.leb b 13) || Nat.eqb b 32.

(** Does a string hold a byte that satisfies [p]? *)
Fixpoint has_byte (p : ascii -> bool) (s : string) : bool :=
  match s with
  | EmptyString => false
  | String c s' => p c || has_byte p s'
  end.

(** A token: not empty, and free of ASCII white space. *)
Definition word (t : string) : Prop :=
  t <> "" /\ has_byte is_ascii_space t = false.

(** A line: free of line feeds. *)
Definition one_line (l : string) : Prop :=
  has_byte (Ascii.eqb (ascii_of_nat 10)) l = false.

(** The number of line feeds in a string. *)
Fixpoint count_newlines (s : string) : nat :=
  match s with
  | EmptyString => 0%nat
  | String c s' =>
      if Ascii.eqb (ascii_of_nat 10) c then S (count_newlines s') else count_newlines s'
  end.

(** The rows of a frame, one after the other. *)
Fixpoint rows_text (row : string -> string) (items : list string) : string :=
  match items with
  | [] => EmptyString
  | item :: rest => (row item ++ rows_text row rest)%string
  end.

(** The row loop both [View] methods share: [hi] draws the row under the
    cursor, [lo] any other row. *)
Fixpoint render_rows (hi lo : string -> string) (menu_cursor i : Z)
    (items : list string) (s : string) : string :=
  match items with
  | [] => s
  | item :: rest =>
      render_rows hi lo menu_cursor (GoInt.add i 1) rest
        (s ++ (if (menu_cursor =? i)%Z then hi item else lo item))%string
  end.

(** A row away from the cursor: two blanks, the item, a line feed. *)
Definition plain_row (item : string) : string := (" " ++ " " ++ item ++ newline)%string.

(** The rows under the cursor: the coloured mark, a blank, the coloured
    item, a line feed. *)
Definition container_cursor_row (config : Config) (item : string) : string :=
  (renderCursor config ++ " " ++ renderContainerSelected config item true ++ newline)%string.


(** What every frame starts with: cursor home, clear screen. *)
Definition clear_screen : string := (esc ++ "[H" ++ esc ++ "[2J")%string.

(** An event that neither ends the menu nor fails: any message but a
    cancel key and the enter key. *)
Definition steady (i : tea.input) : bool :=
  match i with
  | tea.Deliver (tea.KeyMsg k) => negb (is_cancel k) && negb (String.eqb k "enter")
  | tea.Deliver tea.OtherMsg => true
  | tea.Fail _ => false
  end.

(** What a container program over the non-empty list [cs] can be after
    the events [seen]: running on [cs] with the cursor on an item and no
    selection, stopped by a quit command with no selection or with an item
    of [cs] selected, or stopped by a failure that is among [seen]. *)
Definition container_program_ok (cs : list string) (seen : list tea.input)
    (st : tea.program containerChoice.t) : Prop :=
  match st with
  | tea.Running menu =>
      containerChoice.containers menu = cs
      /\ 0 <= containerChoice.cursor menu < GoInt.len cs
      /\ containerChoice.selectedContainer menu = ""
  | tea.Stopped menu None =>
      containerChoice.selectedContainer menu = ""
      \/ In (containerChoice.selectedContainer menu) cs
  | tea.Stopped _ (Some err) => In (tea.Fail err) seen
  end.

(** The same for the action program made for the container [c]. *)
Definition action_program_ok (c : Container) (seen : list tea.input)
    (st : tea.program actionChoice.t) : Prop :=
  match st with
  | tea.Running menu =>
      actionChoice.actions menu = ["Exit"; "Copy container ID"]
      /\ 0 <= actionChoice.cursor menu < 2
      /\ actionChoice.selectedAction menu = ""
      /\ actionChoice.selectedContainer menu = c
  | tea.Stopped menu None =>
      (actionChoice.selectedAction menu = ""
       \/ In (actionChoice.selectedAction menu) ["Exit"; "Copy container ID"])
      /\ actionChoice.selectedContainer menu = c
  | tea.Stopped _ (Some err) => In (tea.Fail err) seen
  end.

(** What a container program over no container can be: running with the
    cursor at -1 or 0 and no selection, or stopped without a selection. *)
Definition empty_program_ok (st : tea.program containerChoice.t) : Prop :=
  match st with
  | tea.Running menu =>
      containerChoice.containers menu = []
      /\ -1 <= containerChoice.cursor menu <= 0
      /\ containerChoice.selectedContainer menu = ""
  | tea.Stopped menu _ => containerChoice.selectedContainer menu = ""
  end.

(** The standard inputs [pbcopy] was run on, in order. *)
Fixpoint pbcopy_runs (trace : list effect) : list string :=
  match trace with
  | [] => []
  | RunPbcopy stdin :: rest => stdin :: pbcopy_runs rest
  | _ :: rest => pbcopy_runs rest
  end.

(** The startup checks of [main] all pass. *)
Definition started (w : world) : Prop :=
  json_Unmarshal w = None
  /\ docker_version w = None
  /\ docker_container_ls w = None
  /\ snd (docker_container_ls_a w) = None.

(** The lines [getContainers] hands to [main]. *)
Definition listed (w : world) : list string := fst (getContainers (docker_container_ls_a w)).

(** The arguments make [main] open the menus: no flag, or the run flag. *)
Definition opens_menus (w : world) : bool :=
  match os_Args w with
  | _ :: flag :: _ => String.eqb flag "--run" || String.eqb flag "-r"
  | _ => true
  end.

(** No event of a trace is a run of [pbcopy]. *)
Definition no_pbcopy (trace : list event) : Prop :=
  Forall (fun e => forall stdin : string, e <> Eff (RunPbcopy stdin)) trace.

(** The line of the first startup check that fails, if one does. *)
Definition startup_diagnostic (w : world) : option event :=
  match json_Unmarshal w with
  | Some err => Some (Stdout ("error parsing config file: " ++ err ++ newline)%string)
  | None =>
      match docker_version w with
      | Some _ => Some (Eff (Println "Docker is not installed"))
      | None =>
          match docker_container_ls w with
          | Some _ => Some (Eff (Println "Docker is not running"))
          | None =>
              match snd (docker_container_ls_a w) with
              | Some _ => Some (Eff (Println "Error getting containers"))
              | None => None
              end
          end
      end
  end.

(** The last byte of a string. *)
Fixpoint last_byte (s : string) : option ascii :=
  match s with
  | EmptyString => None
  | String c EmptyString => Some c
  | String _ s' => last_byte s'
  end.

(** More concrete inputs. *)
Definition listing : string :=
  ("CONTAINER ID IMAGE COMMAND CREATED STATUS PORTS NAMES" ++ newline
   ++ nginx_line ++ newline
   ++ "def456 redis:7 redis-server 3 hours ago Exited (0) 2 hours ago cache" ++ newline)%string.

Definition colours : Config :=
  {| Ui := {| CursorColor := "32"; BranchColor := "31";
              ContainerSelectedColor := "33"; ActionSelectedColor := "34" |} |}.

(** A machine where every startup check passes and docker prints
    [listing]. *)
Definition machine (args : list string) (container_keys action_keys : list tea.input)
    (pbcopy : string -> option error) : world :=
  {| json_Unmarshal := None;
     docker_version := None;
     docker_container_ls := None;
     docker_container_ls_a := (listing, None);
     os_Args := args;
     container_events := container_keys;
     action_events := action_keys;
     pbcopy_run := pbcopy |}.

(** A machine without docker. *)
Definition no_docker : world :=
  {| json_Unmarshal := None;
     docker_version := Some "executable file not found in $PATH";
     docker_container_ls := None;
     docker_container_ls_a := ("", None);
     os_Args := ["whale"];
     container_events := [];
     action_events := [];
     pbcopy_run := fun _ => None |}.

(** What [nginx_line] parses to. *)
Definition nginx_container : Container :=
  {| ID := "abc123"; Image := "nginx:latest"; Command := "cmd";
     Created := "2 days ago"; Status := "Up 2 days 0.0.0.0:80->80/tcp";
     Ports := ""; Name := "web" |}.

Definition working_pbcopy (stdin : string) : option error := None.

(** A machine where docker lists one line of two tokens, which the
    operator chooses with the enter key. *)
Definition short_line_machine : world :=
  {| json_Unmarshal := None;
     docker_version := None;
     docker_container_ls := None;
     docker_container_ls_a :=
       (("CONTAINER ID IMAGE" ++ newline ++ "abc123 nginx:latest" ++ newline)%string, None);
     os_Args := ["whale"];
     container_events := [key "enter"];
     action_events := [];
     pbcopy_run := working_pbcopy |}.

(** * Properties *)

(** ** The code on a few inputs *)

Example Fields_demo :
  Strings.Fields ("  ab" ++ tab ++ " c" ++ nbsp ++ "d ")%string = ["ab"; "c"; "d"].
Proof. reflexivity. Qed.

Example convert_demo :
  convertStringToContainer nginx_line
  = Returned {| ID := "abc123"; Image := "nginx:latest"; Command := "cmd";
                Created := "2 days ago"; Status := "Up 2 days 0.0.0.0:80->80/tcp";
                Ports := ""; Name := "web" |}.
Proof. reflexivity. Qed.

Example choose_demo :
  chooseContainer ["a"; "b"; "c"] [key "down"; key "down"; key "enter"] = Done ("b", None).
Proof. reflexivity. Qed.

Example choose_empty_demo :
  chooseContainer [] [key "down"; key "enter"] = Done ("", Some tea.ErrProgramPanic).
Proof. reflexivity. Qed.

Example commit_after_up :
  tea.Run (initialContainerModel ["web"; "db"; "cache"]) [key "up"] = tea.Running two_of_three
  /\ chooseContainer ["web"; "db"; "cache"] [key "up"; key "enter"] = Done ("db", None).
Proof. split; reflexivity. Qed.

(** ** Integers, indexing, slicing *)

Lemma wrap_small (z : Z) :
  GoInt.min_int <= z <= GoInt.max_int -> GoInt.wrap z = z.
Proof.
  unfold GoInt.min_int, GoInt.max_int, GoInt.wrap. intros Hz.
  rewrite Z.mod_small; lia.
Qed.

Lemma len_nonneg {A : Type} (s : list A) : 0 <= GoInt.len s.
Proof. unfold GoInt.len. lia. Qed.

Lemma len_cons {A : Type} (a : A) (s : list A) : GoInt.len (a :: s) = GoInt.len s + 1.
Proof. unfold GoInt.len. cbn [List.length]. lia. Qed.

Lemma len_nil {A : Type} : GoInt.len (@nil A) = 0.
Proof. reflexivity. Qed.

Lemma min_int_neg : GoInt.min_int < -1.
Proof. reflexivity. Qed.

(** An index inside the slice yields the element there. *)
Lemma index_in_range {A : Type} (s : list A) (i : Z) (d : A) :
  0 <= i < GoInt.len s -> index s i = Returned (nth (Z.to_nat i) s d).
Proof.
  intros Hi. unfold index.
  destruct (i <? 0) eqn:Hlo; [apply Z.ltb_lt in Hlo; lia|].
  destruct (GoInt.len s <=? i) eqn:Hhi; [apply Z.leb_le in Hhi; lia|].
  cbn [orb].
  destruct (nth_error s (Z.to_nat i)) as [a|] eqn:Hn.
  - now rewrite (nth_error_nth s (Z.to_nat i) d Hn).
  - apply nth_error_None in Hn. unfold GoInt.len in Hi. lia.
Qed.

(** An index outside the slice panics. *)
Lemma index_out_of_range {A : Type} (s : list A) (i : Z) :
  i < 0 \/ GoInt.len s <= i -> index s i = Panicked (IndexOutOfRange i (GoInt.len s)).
Proof.
  intros Hi. unfold index.
  destruct (i <? 0) eqn:Hlo; [reflexivity|].
  destruct (GoInt.len s <=? i) eqn:Hhi; [reflexivity|].
  apply Z.ltb_ge in Hlo. apply Z.leb_gt in Hhi. lia.
Qed.

Lemma index_last {A : Type} (s : list A) (d : A) :
  GoInt.fits s -> s <> [] ->
  index s (GoInt.sub (GoInt.len s) 1) = Returned (nth (List.length s - 1) s d).
Proof.
  intros Hfit Hne. unfold GoInt.sub.
  assert (Hpos : 0 < GoInt.len s).
  { destruct s; [congruence|]. rewrite len_cons. pose proof (len_nonneg s). lia. }
  rewrite wrap_small.
  - rewrite (index_in_range s _ d) by lia.
    f_equal. f_equal. unfold GoInt.len. lia.
  - unfold GoInt.fits in Hfit. pose proof min_int_neg. lia.
Qed.

(** ** The record parser *)

(** Fewer than three tokens: the first index that is out of range panics. *)
Lemma containerOfFields_short (fields : list string) :
  GoInt.len fields < 3 ->
  containerOfFields fields
  = Panicked (IndexOutOfRange (GoInt.len fields) (GoInt.len fields)).
Proof.
  intros Hn.
  destruct fields as [|f0 [|f1 [|f2 rest]]]; try reflexivity.
  exfalso. rewrite !len_cons in Hn. pose proof (len_nonneg rest). lia.
Qed.

(** Three to five tokens: the slice [fields[3:6]] panics. *)
Lemma containerOfFields_no_created (fields : list string) :
  3 <= GoInt.len fields < 6 ->
  containerOfFields fields = Panicked (SliceBoundsOutOfRange 6 (GoInt.len fields)).
Proof.
  intros Hn.
  destruct fields as [|f0 [|f1 [|f2 [|f3 [|f4 [|f5 rest]]]]]];
    try reflexivity; exfalso.
  - rewrite len_nil in Hn. lia.
  - rewrite !len_cons, len_nil in Hn. lia.
  - rewrite !len_cons, len_nil in Hn. lia.
  - rewrite !len_cons in Hn. pose proof (len_nonneg rest). lia.
Qed.

(** Six tokens or more: every field is assigned by position. *)
Lemma containerOfFields_positional (fields : list string) :
  GoInt.fits fields -> 6 <= GoInt.len fields ->
  exists c, containerOfFields fields = Returned c /\ positional fields c.
Proof.
  intros Hfit Hn.
  assert (Hne : fields <> []) by (intros ->; rewrite len_nil in Hn; lia).
  unfold containerOfFields, slice, positional.
  rewrite (index_last fields "" Hfit Hne).
  rewrite (index_in_range fields 0 ""), (index_in_range fields 1 ""),
    (index_in_range fields 2 "") by lia.
  destruct (GoInt.len fields <? Z.of_nat 6) eqn:H6; [apply Z.ltb_lt in H6; lia|].
  destruct (10 <? GoInt.len fields) eqn:H10.
  - apply Z.ltb_lt in H10.
    destruct (GoInt.len fields <? Z.of_nat 10) eqn:H10'; [apply Z.ltb_lt in H10'; lia|].
    destruct fields as [|f0 [|f1 [|f2 [|f3 [|f4 [|f5 [|f6 [|f7 [|f8 [|f9 rest]]]]]]]]]];
      try (exfalso; rewrite ?len_cons, ?len_nil in H10; lia).
    eexists; split; [reflexivity|]. repeat split.
  - destruct fields as [|f0 [|f1 [|f2 [|f3 [|f4 [|f5 rest]]]]]];
      try (exfalso; rewrite ?len_cons, ?len_nil in Hn; lia).
    eexists; split; [reflexivity|]. repeat split.
Qed.

(** C1, as the specification words it: on a line of fewer than three
    tokens the parser fails with the MalformedRecord error, an error being
    a value handed back to the caller, who rejects that line and goes on.
    The line of two tokens refutes it: the call does not return, it
    panics on [fields[2]]; [main], the caller, gets no error to handle and
    is brought down by the panic before it prints anything. *)
Lemma convertStringToContainer_two_tokens_panic :
  GoInt.len (Strings.Fields "abc123 nginx:latest") < 3
  /\ convertStringToContainer "abc123 nginx:latest" = Panicked (IndexOutOfRange 2 2)
  /\ ~ returns (convertStringToContainer "abc123 nginx:latest")
  /\ chooseContainer (listed short_line_machine) (container_events short_line_machine)
     = Done ("abc123 nginx:latest", None)
  /\ main short_line_machine = ([], Abort (IndexOutOfRange 2 2)).
Proof.
  split; [reflexivity|]. split; [reflexivity|]. split; [|split; reflexivity].
  intros [c Hc]. discriminate Hc.
Qed.

(** C1, amended.  A line with fewer than three white-space separated
    tokens yields no [Container], whole or partial:
    [convertStringToContainer] does not return, it panics with the
    run-time error of the first index that is out of range, [fields[n]]
    for a line of [n] tokens. *)
Theorem convertStringToContainer_rejects_short (str : string) :
  GoInt.len (Strings.Fields str) < 3 ->
  convertStringToContainer str
  = Panicked (IndexOutOfRange (GoInt.len (Strings.Fields str))
                              (GoInt.len (Strings.Fields str)))
  /\ forall c : Container, convertStringToContainer str <> Returned c.
Proof.
  intros Hn. unfold convertStringToContainer.
  rewrite (containerOfFields_short _ Hn). split; [reflexivity | discriminate].
Qed.

Lemma convertStringToContainer_rejects_short_witness :
  GoInt.len (Strings.Fields "abc123  nginx:latest ") < 3
  /\ convertStringToContainer "abc123  nginx:latest " = Panicked (IndexOutOfRange 2 2)
  /\ forall c : Container,
       convertStringToContainer "abc123  nginx:latest " <> Returned c.
Proof.
  split; [reflexivity|].
  apply (convertStringToContainer_rejects_short "abc123  nginx:latest ").
  reflexivity.
Defined.

(** C3, as the specification words it: every line that is not rejected
    for having fewer than three tokens yields a [Container] whose fields
    are assigned by position.  A line of four tokens refutes it: the
    slice [fields[3:6]] panics and nothing is returned. *)
Lemma convertStringToContainer_four_tokens :
  3 <= GoInt.len (Strings.Fields "abc123 nginx:latest sh web")
  /\ convertStringToContainer "abc123 nginx:latest sh web"
     = Panicked (SliceBoundsOutOfRange 6 4)
  /\ ~ (exists c : Container,
          convertStringToContainer "abc123 nginx:latest sh web" = Returned c
          /\ positional (Strings.Fields "abc123 nginx:latest sh web") c).
Proof.
  split; [discriminate|]. split; [reflexivity|].
  intros [c [Hc _]]. discriminate Hc.
Qed.

(** C3, amended.  For every line of at least six tokens the parser returns
    a [Container] with token 0 as identifier, token 1 as image, token 2 as
    command, tokens 3 to 5 joined by single spaces as creation text,
    tokens 6 to 9 joined by single spaces as status when there are more
    than ten tokens and the empty status otherwise, empty port text, and
    the last token as name. *)
Theorem convertStringToContainer_positional (str : string) :
  GoInt.fits (Strings.Fields str) ->
  6 <= GoInt.len (Strings.Fields str) ->
  exists c : Container,
    convertStringToContainer str = Returned c
    /\ positional (Strings.Fields str) c.
Proof.
  intros Hfit Hn. exact (containerOfFields_positional _ Hfit Hn).
Qed.

Lemma convertStringToContainer_positional_witness :
  GoInt.fits (Strings.Fields nginx_line)
  /\ 6 <= GoInt.len (Strings.Fields nginx_line)
  /\ exists c : Container,
       convertStringToContainer nginx_line = Returned c
       /\ positional (Strings.Fields nginx_line) c.
Proof.
  assert (Hfit : GoInt.fits (Strings.Fields nginx_line)) by (apply Z.leb_le; reflexivity).
  assert (Hn : 6 <= GoInt.len (Strings.Fields nginx_line)) by (apply Z.leb_le; reflexivity).
  split; [exact Hfit|]. split; [exact Hn|].
  exact (convertStringToContainer_positional nginx_line Hfit Hn).
Defined.

(** ** Cursor arithmetic shared by the two menus *)

Lemma cursor_up_mod (n c : Z) :
  n <= GoInt.max_int -> 0 <= c < n -> cursor_up n c = (c - 1) mod n.
Proof.
  intros Hn Hc. unfold cursor_up, GoInt.sub.
  pose proof min_int_neg.
  rewrite !wrap_small by lia.
  destruct (c - 1 <? 0) eqn:E.
  - apply Z.ltb_lt in E. assert (c = 0) by lia. subst c.
    replace (0 - 1) with (n - 1 + (-1) * n) by lia.
    rewrite Z.mod_add by lia. rewrite Z.mod_small; lia.
  - apply Z.ltb_ge in E. rewrite Z.mod_small; lia.
Qed.

Lemma cursor_down_mod (n c : Z) :
  n <= GoInt.max_int -> 0 <= c < n -> cursor_down n c = (c + 1) mod n.
Proof.
  intros Hn Hc. unfold cursor_down, GoInt.add.
  pose proof min_int_neg.
  rewrite !wrap_small by lia.
  destruct (n <=? c + 1) eqn:E.
  - apply Z.leb_le in E. assert (c + 1 = n) by lia.
    replace (c + 1) with n by lia. now rewrite Z.mod_same by lia.
  - apply Z.leb_gt in E. rewrite Z.mod_small; lia.
Qed.

Lemma cursor_up_in_range (n c : Z) :
  n <= GoInt.max_int -> 0 <= c < n -> 0 <= cursor_up n c < n.
Proof.
  intros Hn Hc. rewrite cursor_up_mod by assumption. apply Z.mod_pos_bound. lia.
Qed.

Lemma cursor_down_in_range (n c : Z) :
  n <= GoInt.max_int -> 0 <= c < n -> 0 <= cursor_down n c < n.
Proof.
  intros Hn Hc. rewrite cursor_down_mod by assumption. apply Z.mod_pos_bound. lia.
Qed.

Lemma iter_cursor_down (n c : Z) (k : nat) :
  n <= GoInt.max_int -> 0 <= c < n ->
  Nat.iter k (cursor_down n) c = (c + Z.of_nat k) mod n.
Proof.
  intros Hn Hc. induction k as [|k IH].
  - change (Nat.iter 0 (cursor_down n) c) with c.
    change (Z.of_nat 0) with 0. rewrite Z.add_0_r.
    symmetry. apply Z.mod_small. lia.
  - rewrite Nat.iter_succ, IH.
    rewrite cursor_down_mod by (try apply Z.mod_pos_bound; lia).
    rewrite Zplus_mod_idemp_l. f_equal. lia.
Qed.

Lemma iter_cursor_up (n c : Z) (k : nat) :
  n <= GoInt.max_int -> 0 <= c < n ->
  Nat.iter k (cursor_up n) c = (c - Z.of_nat k) mod n.
Proof.
  intros Hn Hc. induction k as [|k IH].
  - change (Nat.iter 0 (cursor_up n) c) with c.
    change (Z.of_nat 0) with 0. rewrite Z.sub_0_r.
    symmetry. apply Z.mod_small. lia.
  - rewrite Nat.iter_succ, IH.
    rewrite cursor_up_mod by (try apply Z.mod_pos_bound; lia).
    rewrite Zminus_mod_idemp_l. f_equal. lia.
Qed.

(** A full turn, in either direction, comes back to the start. *)
Lemma iter_cursor_full_turn (n c : Z) :
  n <= GoInt.max_int -> 0 <= c < n ->
  Nat.iter (Z.to_nat n) (cursor_down n) c = c
  /\ Nat.iter (Z.to_nat n) (cursor_up n) c = c.
Proof.
  intros Hn Hc. rewrite iter_cursor_down, iter_cursor_up by assumption.
  rewrite Z2Nat.id by lia. split.
  - replace (c + n) with (c + 1 * n) by lia.
    rewrite Z.mod_add by lia. apply Z.mod_small. lia.
  - replace (c - n) with (c + (-1) * n) by lia.
    rewrite Z.mod_add by lia. apply Z.mod_small. lia.
Qed.

(** ** The event loop *)

Section EventLoop.

Context {M : Type} `{tea.Model M}.

Lemma deliver_stopped (m : M) (err : option error) (inputs : list tea.input) :
  fold_left tea.deliver inputs (tea.Stopped m err) = tea.Stopped m err.
Proof. induction inputs as [|i inputs IH]; [reflexivity | exact IH]. Qed.

Lemma Run_app (m : M) (pre post : list tea.input) :
  tea.Run m (pre ++ post) = fold_left tea.deliver post (tea.Run m pre).
Proof. unfold tea.Run. apply fold_left_app. Qed.

End EventLoop.

(** ** One step of each menu, case by case *)

Lemma containerChoice_Update_cases (menu : containerChoice.t) (msg : tea.Msg) :
  containerChoice.Update menu msg =
  match msg with
  | tea.KeyMsg k =>
      let n := GoInt.len (containerChoice.containers menu) in
      let c := containerChoice.cursor menu in
      if is_cancel k then Returned (menu, Some tea.Quit)
      else if String.eqb k "up" then
        Returned (containerChoice.with_cursor menu (cursor_up n c), None)
      else if String.eqb k "down" then
        Returned (containerChoice.with_cursor menu (cursor_down n c), None)
      else if String.eqb k "enter" then
        item <- index (containerChoice.containers menu) c ;;
        Returned (containerChoice.with_selectedContainer menu item, Some tea.Quit)
      else Returned (menu, None)
  | tea.OtherMsg => Returned (menu, None)
  end.
Proof.
  destruct msg as [k|]; [|reflexivity].
  unfold containerChoice.Update, is_cancel, cursor_up, cursor_down.
  cbn [containerChoice.cursor containerChoice.containers containerChoice.with_cursor].
  split_keys k.
Qed.

Lemma actionChoice_Update_cases (menu : actionChoice.t) (msg : tea.Msg) :
  actionChoice.Update menu msg =
  match msg with
  | tea.KeyMsg k =>
      let n := GoInt.len (actionChoice.actions menu) in
      let c := actionChoice.cursor menu in
      if is_cancel k then Returned (menu, Some tea.Quit)
      else if String.eqb k "up" then
        Returned (actionChoice.with_cursor menu (cursor_up n c), None)
      else if String.eqb k "down" then
        Returned (actionChoice.with_cursor menu (cursor_down n c), None)
      else if String.eqb k "enter" then
        item <- index (actionChoice.actions menu) c ;;
        Returned (actionChoice.with_selectedAction menu item, Some tea.Quit)
      else Returned (menu, None)
  | tea.OtherMsg => Returned (menu, None)
  end.
Proof.
  destruct msg as [k|]; [|reflexivity].
  unfold actionChoice.Update, is_cancel, cursor_up, cursor_down.
  cbn [actionChoice.cursor actionChoice.actions actionChoice.with_cursor].
  split_keys k.
Qed.

Lemma containerChoice_with_cursor_same (menu : containerChoice.t) :
  containerChoice.with_cursor menu (containerChoice.cursor menu) = menu.
Proof. destruct menu; reflexivity. Qed.

Lemma actionChoice_with_cursor_same (menu : actionChoice.t) :
  actionChoice.with_cursor menu (actionChoice.cursor menu) = menu.
Proof. destruct menu; reflexivity. Qed.

Lemma containerChoice_deliver (menu : containerChoice.t) (msg : tea.Msg) :
  tea.deliver (tea.Running menu) (tea.Deliver msg)
  = match containerChoice.Update menu msg with
    | Returned (menu', cmd) => tea.after_cmd menu' cmd
    | Panicked _ => tea.Stopped menu (Some tea.ErrProgramPanic)
    end.
Proof. reflexivity. Qed.

Lemma actionChoice_deliver (menu : actionChoice.t) (msg : tea.Msg) :
  tea.deliver (tea.Running menu) (tea.Deliver msg)
  = match actionChoice.Update menu msg with
    | Returned (menu', cmd) => tea.after_cmd menu' cmd
    | Panicked _ => tea.Stopped menu (Some tea.ErrProgramPanic)
    end.
Proof. reflexivity. Qed.

(** [k] presses of one arrow key move the cursor [k] times and change
    nothing else; the program keeps running. *)
Lemma containerChoice_arrows (arrow : string) (step : Z -> Z -> Z) :
  (forall menu, containerChoice.Update menu (tea.KeyMsg arrow)
     = Returned (containerChoice.with_cursor menu
                   (step (GoInt.len (containerChoice.containers menu))
                         (containerChoice.cursor menu)), None)) ->
  forall (k : nat) (menu : containerChoice.t),
    fold_left tea.deliver (repeat (key arrow) k) (tea.Running menu)
    = tea.Running (containerChoice.with_cursor menu
        (Nat.iter k (step (GoInt.len (containerChoice.containers menu)))
                  (containerChoice.cursor menu))).
Proof.
  intros Hstep k. induction k as [|k IH]; intros menu.
  - cbn [repeat fold_left]. now rewrite containerChoice_with_cursor_same.
  - cbn [repeat fold_left].
    change (key arrow) with (tea.Deliver (tea.KeyMsg arrow)) at 2.
    rewrite containerChoice_deliver, Hstep. cbn [tea.after_cmd]. rewrite IH. rewrite Nat.iter_succ_r. reflexivity.
Qed.

Lemma actionChoice_arrows (arrow : string) (step : Z -> Z -> Z) :
  (forall menu, actionChoice.Update menu (tea.KeyMsg arrow)
     = Returned (actionChoice.with_cursor menu
                   (step (GoInt.len (actionChoice.actions menu))
                         (actionChoice.cursor menu)), None)) ->
  forall (k : nat) (menu : actionChoice.t),
    fold_left tea.deliver (repeat (key arrow) k) (tea.Running menu)
    = tea.Running (actionChoice.with_cursor menu
        (Nat.iter k (step (GoInt.len (actionChoice.actions menu)))
                  (actionChoice.cursor menu))).
Proof.
  intros Hstep k. induction k as [|k IH]; intros menu.
  - cbn [repeat fold_left]. now rewrite actionChoice_with_cursor_same.
  - cbn [repeat fold_left].
    change (key arrow) with (tea.Deliver (tea.KeyMsg arrow)) at 2.
    rewrite actionChoice_deliver, Hstep. cbn [tea.after_cmd]. rewrite IH. rewrite Nat.iter_succ_r. reflexivity.
Qed.

Lemma len_to_nat {A : Type} (s : list A) : Z.to_nat (GoInt.len s) = List.length s.
Proof. unfold GoInt.len. apply Nat2Z.id. Qed.

(** C5. In a menu with at least one item and the cursor on an item, as
    many "down" presses as there are items leave the program running on
    the very same model, cursor included, and so do as many "up" presses;
    this holds for the container menu and for the action menu.  With the
    cursor on the last of three items, one "down" puts it on index 0. *)
Theorem cursor_wrap_around (cm : containerChoice.t) (am : actionChoice.t) :
  GoInt.fits (containerChoice.containers cm) ->
  0 <= containerChoice.cursor cm < GoInt.len (containerChoice.containers cm) ->
  GoInt.fits (actionChoice.actions am) ->
  0 <= actionChoice.cursor am < GoInt.len (actionChoice.actions am) ->
  tea.Run cm (repeat (key "down") (List.length (containerChoice.containers cm)))
    = tea.Running cm
  /\ tea.Run cm (repeat (key "up") (List.length (containerChoice.containers cm)))
    = tea.Running cm
  /\ tea.Run am (repeat (key "down") (List.length (actionChoice.actions am)))
    = tea.Running am
  /\ tea.Run am (repeat (key "up") (List.length (actionChoice.actions am)))
    = tea.Running am
  /\ (forall (a b c sel : string),
        containerChoice.Update
          {| containerChoice.containers := [a; b; c]; containerChoice.cursor := 2;
             containerChoice.selectedContainer := sel |} (tea.KeyMsg "down")
        = Returned
            ({| containerChoice.containers := [a; b; c]; containerChoice.cursor := 0;
                containerChoice.selectedContainer := sel |}, None)).
Proof.
  intros Hcf Hcc Haf Hac.
  destruct (iter_cursor_full_turn _ _ Hcf Hcc) as [Hcd Hcu].
  destruct (iter_cursor_full_turn _ _ Haf Hac) as [Had Hau].
  rewrite len_to_nat in Hcd, Hcu, Had, Hau.
  unfold tea.Run. cbn [tea.Init containerChoice_Model actionChoice_Model
                       containerChoice.Init actionChoice.Init tea.after_cmd].
  repeat split.
  - rewrite (containerChoice_arrows "down" cursor_down)
      by (intros; now rewrite containerChoice_Update_cases).
    now rewrite Hcd, containerChoice_with_cursor_same.
  - rewrite (containerChoice_arrows "up" cursor_up)
      by (intros; now rewrite containerChoice_Update_cases).
    now rewrite Hcu, containerChoice_with_cursor_same.
  - rewrite (actionChoice_arrows "down" cursor_down)
      by (intros; now rewrite actionChoice_Update_cases).
    now rewrite Had, actionChoice_with_cursor_same.
  - rewrite (actionChoice_arrows "up" cursor_up)
      by (intros; now rewrite actionChoice_Update_cases).
    now rewrite Hau, actionChoice_with_cursor_same.
Qed.

Lemma cursor_wrap_around_witness :
  tea.Run three_containers [key "down"; key "down"; key "down"] = tea.Running three_containers
  /\ tea.Run three_containers [key "up"; key "up"; key "up"] = tea.Running three_containers
  /\ tea.Run (initialActionModel no_container) [key "down"; key "down"]
     = tea.Running (initialActionModel no_container)
  /\ tea.Run (initialActionModel no_container) [key "up"; key "up"]
     = tea.Running (initialActionModel no_container).
Proof.
  assert (Hcf : GoInt.fits (containerChoice.containers three_containers))
    by (apply Z.leb_le; reflexivity).
  assert (Hcc : 0 <= containerChoice.cursor three_containers
                < GoInt.len (containerChoice.containers three_containers))
    by (split; [apply Z.leb_le | apply Z.ltb_lt]; reflexivity).
  assert (Haf : GoInt.fits (actionChoice.actions (initialActionModel no_container)))
    by (apply Z.leb_le; reflexivity).
  assert (Hac : 0 <= actionChoice.cursor (initialActionModel no_container)
                < GoInt.len (actionChoice.actions (initialActionModel no_container)))
    by (split; [apply Z.leb_le | apply Z.ltb_lt]; reflexivity).
  destruct (cursor_wrap_around three_containers (initialActionModel no_container)
              Hcf Hcc Haf Hac) as (H1 & H2 & H3 & H4 & _).
  repeat split; assumption.
Defined.

(** One step keeps the cursor on an item, and never panics. *)
Lemma containerChoice_step_in_range (menu : containerChoice.t) (msg : tea.Msg) :
  GoInt.fits (containerChoice.containers menu) ->
  0 <= containerChoice.cursor menu < GoInt.len (containerChoice.containers menu) ->
  exists (menu' : containerChoice.t) (cmd : option tea.Cmd),
    containerChoice.Update menu msg = Returned (menu', cmd)
    /\ containerChoice.containers menu' = containerChoice.containers menu
    /\ 0 <= containerChoice.cursor menu' < GoInt.len (containerChoice.containers menu').
Proof.
  intros Hfit Hc. rewrite containerChoice_Update_cases.
  destruct msg as [k|]; [cbv zeta | now eauto].
  destruct (is_cancel k); [now eauto|].
  destruct (String.eqb k "up").
  { do 2 eexists. split; [reflexivity|]. split; [reflexivity|].
    apply cursor_up_in_range; assumption. }
  destruct (String.eqb k "down").
  { do 2 eexists. split; [reflexivity|]. split; [reflexivity|].
    apply cursor_down_in_range; assumption. }
  destruct (String.eqb k "enter"); [|now eauto].
  rewrite (index_in_range _ _ "" Hc). cbn [bind].
  do 2 eexists. split; [reflexivity|]. split; [reflexivity | exact Hc].
Qed.

(** The same step invariant for the action menu. *)
Lemma actionChoice_cursor_invariant (menu : actionChoice.t) (msg : tea.Msg) :
  GoInt.fits (actionChoice.actions menu) ->
  0 <= actionChoice.cursor menu < GoInt.len (actionChoice.actions menu) ->
  exists (menu' : actionChoice.t) (cmd : option tea.Cmd),
    actionChoice.Update menu msg = Returned (menu', cmd)
    /\ actionChoice.actions menu' = actionChoice.actions menu
    /\ 0 <= actionChoice.cursor menu' < GoInt.len (actionChoice.actions menu').
Proof.
  intros Hfit Hc. rewrite actionChoice_Update_cases.
  destruct msg as [k|]; [cbv zeta | now eauto].
  destruct (is_cancel k); [now eauto|].
  destruct (String.eqb k "up").
  { do 2 eexists. split; [reflexivity|]. split; [reflexivity|].
    apply cursor_up_in_range; assumption. }
  destruct (String.eqb k "down").
  { do 2 eexists. split; [reflexivity|]. split; [reflexivity|].
    apply cursor_down_in_range; assumption. }
  destruct (String.eqb k "enter"); [|now eauto].
  rewrite (index_in_range _ _ "" Hc). cbn [bind].
  do 2 eexists. split; [reflexivity|]. split; [reflexivity | exact Hc].
Qed.

(** The cursor of the fresh container menu. *)
Lemma initialContainerModel_cursor (containers : list string) :
  GoInt.fits containers ->
  containerChoice.cursor (initialContainerModel containers) = GoInt.len containers - 1.
Proof.
  intros Hfit. cbn [initialContainerModel containerChoice.cursor]. unfold GoInt.sub.
  apply wrap_small. unfold GoInt.fits in Hfit.
  pose proof (len_nonneg containers). pose proof min_int_neg. lia.
Qed.

(** Reachability: from the fresh menu over a non-empty list, whatever the
    events, the menu the program holds has its cursor on an item. *)
Lemma containerChoice_reachable_in_range (containers : list string) (inputs : list tea.input) :
  GoInt.fits containers -> containers <> [] ->
  exists menu : containerChoice.t,
    held (tea.Run (initialContainerModel containers) inputs) = Some menu
    /\ containerChoice.containers menu = containers
    /\ 0 <= containerChoice.cursor menu < GoInt.len containers.
Proof.
  intros Hfit Hne. unfold tea.Run.
  cbn [tea.Init containerChoice_Model containerChoice.Init tea.after_cmd].
  assert (Hinit : exists menu, held (tea.Running (initialContainerModel containers)) = Some menu
            /\ containerChoice.containers menu = containers
            /\ 0 <= containerChoice.cursor menu < GoInt.len containers).
  { eexists. split; [reflexivity|]. split; [reflexivity|].
    rewrite initialContainerModel_cursor by assumption.
    destruct containers; [congruence|]. rewrite len_cons.
    pose proof (len_nonneg containers). lia. }
  revert Hinit. generalize (tea.Running (initialContainerModel containers)).
  induction inputs as [|i inputs IH]; intros st Hst; [exact Hst|].
  cbn [fold_left]. apply IH.
  destruct Hst as (menu & Hheld & Hitems & Hcur).
  destruct st as [m|m err]; cbn [held] in Hheld; try discriminate;
    injection Hheld as ->.
  - destruct i as [msg|err].
    + rewrite containerChoice_deliver.
      destruct (containerChoice_step_in_range menu msg) as (menu' & cmd & HU & Hi' & Hc');
        [now rewrite Hitems | now rewrite Hitems |].
      rewrite HU. exists menu'. rewrite Hi' in Hc'. rewrite Hitems in Hi', Hc'.
      destruct cmd as [[]|]; cbn [tea.after_cmd held]; auto.
    + exists menu. cbn [tea.deliver held]. auto.
  - exists menu. cbn [tea.deliver held]. auto.
Qed.

(** C9. In a menu whose cursor is on an item, every message (an arrow, the
    enter key, a cancel key, any other key, any other message) makes
    [Update] return, without panic, a menu with the same items whose
    cursor is again on an item; and whatever events the program receives
    from the fresh menu over these items, the menu it holds has its cursor
    on an item. *)
Theorem containerChoice_cursor_invariant (menu : containerChoice.t) (msg : tea.Msg) :
  GoInt.fits (containerChoice.containers menu) ->
  0 <= containerChoice.cursor menu < GoInt.len (containerChoice.containers menu) ->
  (exists (menu' : containerChoice.t) (cmd : option tea.Cmd),
     containerChoice.Update menu msg = Returned (menu', cmd)
     /\ containerChoice.containers menu' = containerChoice.containers menu
     /\ 0 <= containerChoice.cursor menu' < GoInt.len (containerChoice.containers menu'))
  /\ (forall inputs : list tea.input,
       exists reached : containerChoice.t,
         held (tea.Run (initialContainerModel (containerChoice.containers menu)) inputs)
         = Some reached
         /\ containerChoice.containers reached = containerChoice.containers menu
         /\ 0 <= containerChoice.cursor reached
            < GoInt.len (containerChoice.containers menu)).
Proof.
  intros Hfit Hc. split.
  - apply containerChoice_step_in_range; assumption.
  - intros inputs. apply containerChoice_reachable_in_range; [assumption|].
    intros Hnil. rewrite Hnil in Hc. unfold GoInt.len in Hc. cbn [List.length] in Hc. lia.
Qed.

Lemma containerChoice_cursor_invariant_witness :
  (exists (menu' : containerChoice.t) (cmd : option tea.Cmd),
     containerChoice.Update three_containers (tea.KeyMsg "down") = Returned (menu', cmd)
     /\ containerChoice.containers menu' = containerChoice.containers three_containers
     /\ 0 <= containerChoice.cursor menu' < GoInt.len (containerChoice.containers menu'))
  /\ (forall inputs : list tea.input,
       exists reached : containerChoice.t,
         held (tea.Run (initialContainerModel ["web"; "db"; "cache"]) inputs) = Some reached
         /\ containerChoice.containers reached = ["web"; "db"; "cache"]
         /\ 0 <= containerChoice.cursor reached < 3).
Proof.
  apply (containerChoice_cursor_invariant three_containers (tea.KeyMsg "down")).
  - apply Z.leb_le; reflexivity.
  - split; [apply Z.leb_le | apply Z.ltb_lt]; reflexivity.
Defined.

(** C6. In a container menu whose cursor is on an item, the enter key
    makes [Update] return the menu with that very item recorded as the
    selection, together with the quit command; and when the program holds
    this menu after the events [pre], [chooseContainer] on [pre], then
    enter, then anything, returns that item with a nil error. *)
Theorem commit_selects_item_at_cursor (menu : containerChoice.t) :
  GoInt.fits (containerChoice.containers menu) ->
  0 <= containerChoice.cursor menu < GoInt.len (containerChoice.containers menu) ->
  exists item : string,
    nth_error (containerChoice.containers menu) (Z.to_nat (containerChoice.cursor menu))
    = Some item
    /\ containerChoice.Update menu (tea.KeyMsg "enter")
       = Returned (containerChoice.with_selectedContainer menu item, Some tea.Quit)
    /\ forall pre post : list tea.input,
         tea.Run (initialContainerModel (containerChoice.containers menu)) pre
         = tea.Running menu ->
         chooseContainer (containerChoice.containers menu) (pre ++ key "enter" :: post)
         = Done (item, None).
Proof.
  intros Hfit Hc.
  pose proof (index_in_range (containerChoice.containers menu) _ "" Hc) as Hidx.
  exists (nth (Z.to_nat (containerChoice.cursor menu)) (containerChoice.containers menu) "").
  assert (HU : containerChoice.Update menu (tea.KeyMsg "enter")
               = Returned (containerChoice.with_selectedContainer menu
                   (nth (Z.to_nat (containerChoice.cursor menu))
                        (containerChoice.containers menu) ""), Some tea.Quit)).
  { rewrite containerChoice_Update_cases. cbv zeta.
    change (is_cancel "enter") with false. cbn [String.eqb Ascii.eqb Bool.eqb].
    now rewrite Hidx. }
  split; [|split].
  - apply nth_error_nth'. unfold GoInt.len in Hc. lia.
  - exact HU.
  - intros pre post Hpre. unfold chooseContainer.
    rewrite Run_app, Hpre. cbn [fold_left].
    unfold key. rewrite containerChoice_deliver, HU. cbn [tea.after_cmd].
    rewrite deliver_stopped. reflexivity.
Qed.

Lemma commit_selects_item_at_cursor_witness :
  exists item : string,
    nth_error ["web"; "db"; "cache"] 1 = Some item
    /\ containerChoice.Update two_of_three (tea.KeyMsg "enter")
       = Returned (containerChoice.with_selectedContainer two_of_three item, Some tea.Quit)
    /\ forall pre post : list tea.input,
         tea.Run (initialContainerModel ["web"; "db"; "cache"]) pre
         = tea.Running two_of_three ->
         chooseContainer ["web"; "db"; "cache"] (pre ++ key "enter" :: post)
         = Done (item, None).
Proof.
  apply (commit_selects_item_at_cursor two_of_three).
  - apply Z.leb_le; reflexivity.
  - split; [apply Z.leb_le | apply Z.ltb_lt]; reflexivity.
Defined.

(** C2, as the specification words it: over no item the enter key fails
    with the EmptySelection error.  The fresh menu over the empty list
    refutes it: [Update] does not return an error, nor anything else; it
    panics on [menu.containers[-1]], and the only error that reaches the
    caller of [chooseContainer] is the one the runtime makes of any
    recovered panic. *)
Lemma commit_on_fresh_empty_menu_panics :
  containerChoice.containers (initialContainerModel []) = []
  /\ containerChoice.Update (initialContainerModel []) (tea.KeyMsg "enter")
     = Panicked (IndexOutOfRange (-1) 0)
  /\ ~ returns (containerChoice.Update (initialContainerModel []) (tea.KeyMsg "enter"))
  /\ chooseContainer [] [key "enter"]
     = Done ("", Some "program was killed: program experienced a panic").
Proof.
  split; [reflexivity|]. split; [reflexivity|]. split; [|reflexivity].
  intros [r Hr]. discriminate Hr.
Qed.

(** C2, amended.  In a container menu without items the enter key makes
    [Update] panic, whatever the cursor, on [menu.containers[menu.cursor]]
    before any selection is assigned: it returns no menu.  The runtime
    recovers the panic and stops the program with its own error, the menu
    it holds unchanged; when the program held this menu after the events
    [pre], [chooseContainer] on [pre], then enter, then anything, returns
    the empty string together with that error. *)
Theorem commit_on_empty_fails (menu : containerChoice.t) :
  containerChoice.containers menu = [] ->
  containerChoice.Update menu (tea.KeyMsg "enter")
  = Panicked (IndexOutOfRange (containerChoice.cursor menu) 0)
  /\ (forall (menu' : containerChoice.t) (cmd : option tea.Cmd),
        containerChoice.Update menu (tea.KeyMsg "enter") <> Returned (menu', cmd))
  /\ tea.deliver (tea.Running menu) (key "enter")
     = tea.Stopped menu (Some tea.ErrProgramPanic)
  /\ (forall pre post : list tea.input,
        tea.Run (initialContainerModel []) pre = tea.Running menu ->
        chooseContainer [] (pre ++ key "enter" :: post)
        = Done ("", Some tea.ErrProgramPanic)).
Proof.
  intros Hempty.
  assert (HU : containerChoice.Update menu (tea.KeyMsg "enter")
               = Panicked (IndexOutOfRange (containerChoice.cursor menu) 0)).
  { rewrite containerChoice_Update_cases. cbv zeta.
    change (is_cancel "enter") with false. cbn [String.eqb Ascii.eqb Bool.eqb].
    rewrite index_out_of_range; rewrite Hempty; [reflexivity|].
    unfold GoInt.len. cbn [List.length]. lia. }
  assert (HD : tea.deliver (tea.Running menu) (key "enter")
               = tea.Stopped menu (Some tea.ErrProgramPanic)).
  { unfold key. rewrite containerChoice_deliver, HU. reflexivity. }
  split; [exact HU|]. split; [|split; [exact HD|]].
  - intros menu' cmd. rewrite HU. discriminate.
  - intros pre post Hpre. unfold chooseContainer.
    rewrite Run_app, Hpre. cbn [fold_left]. rewrite HD, deliver_stopped. reflexivity.
Qed.

Lemma commit_on_empty_fails_witness :
  containerChoice.Update (initialContainerModel []) (tea.KeyMsg "enter")
  = Panicked (IndexOutOfRange (-1) 0)
  /\ (forall (menu' : containerChoice.t) (cmd : option tea.Cmd),
        containerChoice.Update (initialContainerModel []) (tea.KeyMsg "enter")
        <> Returned (menu', cmd))
  /\ tea.deliver (tea.Running (initialContainerModel [])) (key "enter")
     = tea.Stopped (initialContainerModel []) (Some tea.ErrProgramPanic)
  /\ (forall pre post : list tea.input,
        tea.Run (initialContainerModel []) pre = tea.Running (initialContainerModel []) ->
        chooseContainer [] (pre ++ key "enter" :: post)
        = Done ("", Some tea.ErrProgramPanic)).
Proof.
  apply (commit_on_empty_fails (initialContainerModel [])). reflexivity.
Defined.

(** C4, as the specification words it: in a menu without items "up" and
    "down" return the menu unchanged.  The fresh menu over the empty list
    refutes it: its cursor is -1, and "down" moves it to 0. *)
Lemma down_on_fresh_empty_menu_moves :
  containerChoice.containers (initialContainerModel []) = []
  /\ containerChoice.cursor (initialContainerModel []) = -1
  /\ containerChoice.Update (initialContainerModel []) (tea.KeyMsg "down")
     = Returned (containerChoice.with_cursor (initialContainerModel []) 0, None)
  /\ containerChoice.Update (initialContainerModel []) (tea.KeyMsg "down")
     <> Returned (initialContainerModel [], None).
Proof.
  split; [reflexivity|]. split; [reflexivity|]. split; [reflexivity|].
  intros H. discriminate H.
Qed.

(** C4, amended.  In a container menu without items whose cursor is -1 or
    0, "up" and "down" return without panic and change neither the items
    nor the selection; "up" leaves the cursor at -1 and "down" at 0. *)
Theorem arrows_on_empty_menu (menu : containerChoice.t) :
  containerChoice.containers menu = [] ->
  -1 <= containerChoice.cursor menu <= 0 ->
  containerChoice.Update menu (tea.KeyMsg "up")
  = Returned (containerChoice.with_cursor menu (-1), None)
  /\ containerChoice.Update menu (tea.KeyMsg "down")
     = Returned (containerChoice.with_cursor menu 0, None).
Proof.
  intros Hempty Hc. rewrite !containerChoice_Update_cases. cbv zeta.
  change (is_cancel "up") with false. change (is_cancel "down") with false.
  cbn [String.eqb Ascii.eqb Bool.eqb]. rewrite Hempty.
  assert (Hup : cursor_up (GoInt.len (@nil string)) (containerChoice.cursor menu) = -1).
  { assert (Hcases : containerChoice.cursor menu = -1 \/ containerChoice.cursor menu = 0) by lia.
    destruct Hcases as [-> | ->]; reflexivity. }
  assert (Hdown : cursor_down (GoInt.len (@nil string)) (containerChoice.cursor menu) = 0).
  { assert (Hcases : containerChoice.cursor menu = -1 \/ containerChoice.cursor menu = 0) by lia.
    destruct Hcases as [-> | ->]; reflexivity. }
  now rewrite Hup, Hdown.
Qed.

Lemma arrows_on_empty_menu_witness :
  containerChoice.Update (initialContainerModel []) (tea.KeyMsg "up")
  = Returned (initialContainerModel [], None)
  /\ containerChoice.Update (initialContainerModel []) (tea.KeyMsg "down")
     = Returned (containerChoice.with_cursor (initialContainerModel []) 0, None).
Proof.
  apply (arrows_on_empty_menu (initialContainerModel [])).
  - reflexivity.
  - split; apply Z.leb_le; reflexivity.
Defined.

Lemma empty_menu_reachable (inputs : list tea.input) :
  empty_menu_state (tea.Run (initialContainerModel []) inputs).
Proof.
  unfold tea.Run. cbn [tea.Init containerChoice_Model containerChoice.Init tea.after_cmd].
  assert (Hinit : empty_menu_state (tea.Running (initialContainerModel []))).
  { cbn. repeat split; lia. }
  revert Hinit. generalize (tea.Running (initialContainerModel [])).
  induction inputs as [|i inputs IH]; intros st Hst; [exact Hst|].
  cbn [fold_left]. apply IH.
  destruct st as [menu|menu err]; [|exact Hst].
  destruct i as [msg|err]; [|exact Hst].
  rewrite containerChoice_deliver, containerChoice_Update_cases.
  destruct Hst as (Hitems & Hcur & Hsel).
  destruct msg as [k|]; [cbv zeta | cbn; auto].
  destruct (is_cancel k); [cbn; auto|].
  assert (Hcases : containerChoice.cursor menu = -1 \/ containerChoice.cursor menu = 0) by lia.
  rewrite Hitems.
  destruct (String.eqb k "up").
  { destruct Hcases as [-> | ->]; cbn; repeat split; auto; lia. }
  destruct (String.eqb k "down").
  { destruct Hcases as [-> | ->]; cbn; repeat split; auto; lia. }
  destruct (String.eqb k "enter"); [|cbn; auto].
  rewrite index_out_of_range by (unfold GoInt.len; cbn [List.length]; lia).
  cbn. auto.
Qed.

(** C7. The fresh container menu, over any list, holds that list, has the
    empty selection and the cursor [len - 1] (the last item when there is
    one), and the program started on it is running, waiting for the first
    event.  The fresh action menu holds the two actions, has the empty
    selection, the cursor [len - 1] (that is 1, on "Copy container ID"),
    remembers the container it was made for, and its program is running
    too. *)
Theorem fresh_menus (containers : list string) (container : Container) :
  GoInt.fits containers ->
  (containerChoice.containers (initialContainerModel containers) = containers
   /\ containerChoice.selectedContainer (initialContainerModel containers) = ""
   /\ containerChoice.cursor (initialContainerModel containers) = GoInt.len containers - 1
   /\ tea.Run (initialContainerModel containers) []
      = tea.Running (initialContainerModel containers))
  /\ (actionChoice.actions (initialActionModel container) = ["Exit"; "Copy container ID"]
      /\ actionChoice.selectedAction (initialActionModel container) = ""
      /\ actionChoice.cursor (initialActionModel container)
         = GoInt.len (actionChoice.actions (initialActionModel container)) - 1
      /\ actionChoice.selectedContainer (initialActionModel container) = container
      /\ tea.Run (initialActionModel container) []
         = tea.Running (initialActionModel container)).
Proof.
  intros Hfit. split.
  - split; [reflexivity|]. split; [reflexivity|]. split; [|reflexivity].
    apply initialContainerModel_cursor. exact Hfit.
  - repeat split.
Qed.

Lemma fresh_menus_witness :
  (containerChoice.containers (initialContainerModel ["web"; "db"]) = ["web"; "db"]
   /\ containerChoice.selectedContainer (initialContainerModel ["web"; "db"]) = ""
   /\ containerChoice.cursor (initialContainerModel ["web"; "db"]) = 2 - 1
   /\ tea.Run (initialContainerModel ["web"; "db"]) []
      = tea.Running (initialContainerModel ["web"; "db"]))
  /\ (actionChoice.actions (initialActionModel no_container) = ["Exit"; "Copy container ID"]
      /\ actionChoice.selectedAction (initialActionModel no_container) = ""
      /\ actionChoice.cursor (initialActionModel no_container) = 2 - 1
      /\ actionChoice.selectedContainer (initialActionModel no_container) = no_container
      /\ tea.Run (initialActionModel no_container) []
         = tea.Running (initialActionModel no_container)).
Proof.
  apply (fresh_menus ["web"; "db"] no_container). apply Z.leb_le; reflexivity.
Defined.

(** ** Cancellation *)

Lemma container_quiet_step (st : tea.program containerChoice.t) (i : tea.input) :
  quiet i = true -> container_unselected st -> container_unselected (tea.deliver st i).
Proof.
  intros Hq Hst. destruct st as [menu|menu [err|]]; try exact Hst.
  destruct i as [msg|err]; [|discriminate Hq].
  rewrite containerChoice_deliver, containerChoice_Update_cases.
  destruct msg as [k|]; [cbv zeta | exact Hst].
  cbn [quiet] in Hq.
  destruct (is_cancel k); [exact Hst|].
  destruct (String.eqb k "up"); [exact Hst|].
  destruct (String.eqb k "down"); [exact Hst|].
  destruct (String.eqb k "enter"); [discriminate Hq | exact Hst].
Qed.

Lemma action_quiet_step (st : tea.program actionChoice.t) (i : tea.input) :
  quiet i = true -> action_unselected st -> action_unselected (tea.deliver st i).
Proof.
  intros Hq Hst. destruct st as [menu|menu [err|]]; try exact Hst.
  destruct i as [msg|err]; [|discriminate Hq].
  rewrite actionChoice_deliver, actionChoice_Update_cases.
  destruct msg as [k|]; [cbv zeta | exact Hst].
  cbn [quiet] in Hq.
  destruct (is_cancel k); [exact Hst|].
  destruct (String.eqb k "up"); [exact Hst|].
  destruct (String.eqb k "down"); [exact Hst|].
  destruct (String.eqb k "enter"); [discriminate Hq | exact Hst].
Qed.

Lemma container_quiet_run (pre : list tea.input) (st : tea.program containerChoice.t) :
  forallb quiet pre = true -> container_unselected st ->
  container_unselected (fold_left tea.deliver pre st).
Proof.
  revert st. induction pre as [|i pre IH]; intros st Hq Hst; [exact Hst|].
  cbn [forallb] in Hq. apply andb_prop in Hq. destruct Hq as [Hi Hpre].
  cbn [fold_left]. apply IH; [exact Hpre|]. now apply container_quiet_step.
Qed.

Lemma action_quiet_run (pre : list tea.input) (st : tea.program actionChoice.t) :
  forallb quiet pre = true -> action_unselected st ->
  action_unselected (fold_left tea.deliver pre st).
Proof.
  revert st. induction pre as [|i pre IH]; intros st Hq Hst; [exact Hst|].
  cbn [forallb] in Hq. apply andb_prop in Hq. destruct Hq as [Hi Hpre].
  cbn [fold_left]. apply IH; [exact Hpre|]. now apply action_quiet_step.
Qed.

(** C10. When the events are messages other than the enter key, then a
    cancel key ("q", "esc" or "ctrl+c"), then anything, [chooseContainer]
    and [chooseAction] both return the empty string with a nil error: the
    very value [chooseContainer] returns when the enter key commits an
    item that is the empty string. *)
Theorem cancel_returns_empty_selection
    (containers : list string) (container : Container)
    (pre post : list tea.input) (k : string) :
  is_cancel k = true ->
  forallb quiet pre = true ->
  chooseContainer containers (pre ++ key k :: post) = Done ("", None)
  /\ chooseAction container (pre ++ key k :: post) = Done ("", None)
  /\ chooseContainer [""] [key "enter"] = Done ("", None).
Proof.
  intros Hk Hpre. split; [|split; [|reflexivity]].
  - unfold chooseContainer. rewrite Run_app. cbn [fold_left].
    pose proof (container_quiet_run pre (tea.Running (initialContainerModel containers))
                  Hpre eq_refl) as Hst.
    change (tea.Run (initialContainerModel containers) pre)
      with (fold_left tea.deliver pre (tea.Running (initialContainerModel containers))).
    destruct (fold_left tea.deliver pre (tea.Running (initialContainerModel containers)))
      as [menu|menu [err|]]; cbn [container_unselected] in Hst; try contradiction.
    + unfold key. rewrite containerChoice_deliver, containerChoice_Update_cases.
      cbv zeta. rewrite Hk. cbn [tea.after_cmd]. rewrite deliver_stopped.
      now rewrite Hst.
    + cbn [tea.deliver]. rewrite deliver_stopped. now rewrite Hst.
  - unfold chooseAction. rewrite Run_app. cbn [fold_left].
    pose proof (action_quiet_run pre (tea.Running (initialActionModel container))
                  Hpre eq_refl) as Hst.
    change (tea.Run (initialActionModel container) pre)
      with (fold_left tea.deliver pre (tea.Running (initialActionModel container))).
    destruct (fold_left tea.deliver pre (tea.Running (initialActionModel container)))
      as [menu|menu [err|]]; cbn [action_unselected] in Hst; try contradiction.
    + unfold key. rewrite actionChoice_deliver, actionChoice_Update_cases.
      cbv zeta. rewrite Hk. cbn [tea.after_cmd]. rewrite deliver_stopped.
      now rewrite Hst.
    + cbn [tea.deliver]. rewrite deliver_stopped. now rewrite Hst.
Qed.

Lemma cancel_returns_empty_selection_witness :
  chooseContainer ["web"; "db"] ([key "up"; tea.Deliver tea.OtherMsg; key "x"]
                                 ++ key "esc" :: [key "enter"]) = Done ("", None)
  /\ chooseAction no_container ([key "up"; tea.Deliver tea.OtherMsg; key "x"]
                                ++ key "esc" :: [key "enter"]) = Done ("", None)
  /\ chooseContainer [""] [key "enter"] = Done ("", None).
Proof.
  apply (cancel_returns_empty_selection ["web"; "db"] no_container
           [key "up"; tea.Deliver tea.OtherMsg; key "x"] [key "enter"] "esc");
    reflexivity.
Defined.

(** ** The action resolver *)

(** C8, as the specification words it: when the clipboard fails, the
    resolver returns the error to its caller.  With a clipboard that
    fails, [doAction] returns nothing: it prints the error and ends the
    process with status 1. *)
Lemma doAction_exits_on_clipboard_failure :
  broken_pbcopy (ID abc123) = Some "exit status 1"
  /\ doAction broken_pbcopy "Copy container ID" abc123
     = ([RunPbcopy "abc123";
         PrintlnError "error copying container ID: exit status 1"], Exit 1)
  /\ ~ (exists err : error,
          snd (doAction broken_pbcopy "Copy container ID" abc123) = Done (Some err)).
Proof.
  split; [reflexivity|]. split; [reflexivity|].
  intros [err Herr]. discriminate Herr.
Qed.

(** C8, amended.  When [pbcopy] fails on the identifier of the container,
    [copyContainerId] returns the wrapped error to its caller [doAction]
    after that single run of [pbcopy]; [doAction] prints the error and
    exits the process with status 1, without running [pbcopy] again and
    without returning. *)
Theorem clipboard_failure_is_fatal
    (pbcopy : string -> option error) (container : Container) (err : error) :
  pbcopy (ID container) = Some err ->
  copyContainerId pbcopy (ID container)
  = ([RunPbcopy (ID container)], Some ("error copying container ID: " ++ err)%string)
  /\ doAction pbcopy "Copy container ID" container
     = ([RunPbcopy (ID container);
         PrintlnError ("error copying container ID: " ++ err)%string], Exit 1).
Proof.
  intros Hfail.
  assert (Hcopy : copyContainerId pbcopy (ID container)
                  = ([RunPbcopy (ID container)],
                     Some ("error copying container ID: " ++ err)%string)).
  { unfold copyContainerId. now rewrite Hfail. }
  split; [exact Hcopy|].
  unfold doAction. cbn [String.eqb Ascii.eqb Bool.eqb]. cbv zeta.
  now rewrite Hcopy.
Qed.

Lemma clipboard_failure_is_fatal_witness :
  copyContainerId broken_pbcopy (ID abc123)
  = ([RunPbcopy "abc123"], Some "error copying container ID: exit status 1")
  /\ doAction broken_pbcopy "Copy container ID" abc123
     = ([RunPbcopy "abc123";
         PrintlnError "error copying container ID: exit status 1"], Exit 1).
Proof.
  apply (clipboard_failure_is_fatal broken_pbcopy abc123 "exit status 1"). reflexivity.
Defined.

(** * Further properties *)

(** ** Strings *)

Lemma string_app_nil_r (s : string) : (s ++ "")%string = s.
Proof. induction s as [|c s IH]; [reflexivity|]. cbn [append]. now rewrite IH. Qed.

Lemma string_app_assoc (a b c : string) : ((a ++ b) ++ c)%string = (a ++ (b ++ c))%string.
Proof. induction a as [|x a IH]; [reflexivity|]. cbn [append]. now rewrite IH. Qed.

Lemma has_byte_app (p : ascii -> bool) (a b : string) :
  has_byte p (a ++ b)%string = has_byte p a || has_byte p b.
Proof.
  induction a as [|x a IH]; [reflexivity|].
  cbn [append has_byte]. rewrite IH. apply orb_assoc.
Qed.

Lemma app_byte_not_empty (a : string) (c : ascii) : (a ++ String c "")%string <> "".
Proof. destruct a; discriminate. Qed.

(** ** Tokens of [strings.Fields] *)

(** Where no white-space rune starts, the first byte is no ASCII space. *)
Lemma space_width_0 (c : ascii) (s : string) :
  Strings.space_width (String c s) = 0%nat -> is_ascii_space c = false.
Proof.
  unfold Strings.space_width, is_ascii_space. cbv zeta.
  destruct ((Nat.leb 9 (nat_of_ascii c) && Nat.leb (nat_of_ascii c) 13)
            || Nat.eqb (nat_of_ascii c) 32); [discriminate | reflexivity].
Qed.

Lemma flush_words (cur : string) (rest : list string) :
  has_byte is_ascii_space cur = false -> Forall word rest ->
  Forall word (Strings.flush cur rest).
Proof.
  intros Hcur Hrest. destruct cur as [|c cur]; [exact Hrest|].
  cbn [Strings.flush]. constructor; [|exact Hrest]. split; [discriminate | exact Hcur].
Qed.

Lemma fields_from_words (s : string) :
  forall (skip : nat) (cur : string),
    has_byte is_ascii_space cur = false ->
    Forall word (Strings.fields_from s skip cur).
Proof.
  induction s as [|c s IH]; intros skip cur Hcur.
  - cbn [Strings.fields_from]. apply flush_words; [exact Hcur | constructor].
  - cbn [Strings.fields_from]. destruct skip as [|k]; [|now apply IH].
    destruct (Strings.space_width (String c s)) as [|k] eqn:Hw.
    + apply IH. rewrite has_byte_app, Hcur. cbn [has_byte orb].
      rewrite (space_width_0 c s Hw). reflexivity.
    + apply flush_words; [exact Hcur|]. now apply IH.
Qed.

(** Every token of a line is a word. *)
Lemma Fields_words (s : string) : Forall word (Strings.Fields s).
Proof. apply fields_from_words. reflexivity. Qed.

Lemma index_In {A : Type} (s : list A) (i : Z) (a : A) :
  index s i = Returned a -> In a s.
Proof.
  unfold index. destruct ((i <? 0) || (GoInt.len s <=? i)); [discriminate|].
  destruct (nth_error s (Z.to_nat i)) as [x|] eqn:Hn; [|discriminate].
  intros H. injection H as <-. exact (nth_error_In _ _ Hn).
Qed.

(** The four fields read by index are tokens of the line. *)
Lemma containerOfFields_tokens (fields : list string) (c : Container) :
  containerOfFields fields = Returned c ->
  In (ID c) fields /\ In (Image c) fields /\ In (Command c) fields /\ In (Name c) fields
  /\ Ports c = "".
Proof.
  unfold containerOfFields. intros H.
  destruct (index fields 0) as [id|] eqn:H0; [|discriminate H].
  destruct (index fields 1) as [image|] eqn:H1; [|discriminate H].
  destruct (index fields 2) as [command|] eqn:H2; [|discriminate H].
  cbn [bind] in H.
  destruct (slice fields 3 6) as [created|]; [|discriminate H].
  cbn [bind] in H.
  destruct (if 10 <? GoInt.len fields
            then s4 <- slice fields 6 10;; Returned (Strings.Join s4 " ")
            else Returned "") as [status|]; [|discriminate H].
  cbn [bind] in H.
  destruct (index fields (GoInt.sub (GoInt.len fields) 1)) as [name|] eqn:Hl; [|discriminate H].
  cbn [bind] in H. injection H as <-. cbn [ID Image Command Name Ports].
  repeat split; eauto using index_In.
Qed.

(** X1. [convertStringToContainer] returns a container exactly for the
    lines of six tokens or more. *)
Theorem convertStringToContainer_returns_iff (str : string) :
  GoInt.fits (Strings.Fields str) ->
  (exists c : Container, convertStringToContainer str = Returned c)
  <-> 6 <= GoInt.len (Strings.Fields str).
Proof.
  intros Hfit. unfold convertStringToContainer. split.
  - intros [c Hc].
    destruct (Z.lt_ge_cases (GoInt.len (Strings.Fields str)) 6) as [Hlt|Hge]; [|exact Hge].
    exfalso.
    destruct (Z.lt_ge_cases (GoInt.len (Strings.Fields str)) 3) as [H3|H3].
    + rewrite (containerOfFields_short _ H3) in Hc. discriminate Hc.
    + rewrite (containerOfFields_no_created _ (conj H3 Hlt)) in Hc. discriminate Hc.
  - intros Hn. destruct (containerOfFields_positional _ Hfit Hn) as [c [Hc _]].
    now exists c.
Qed.

Lemma convertStringToContainer_returns_iff_witness :
  (exists c : Container, convertStringToContainer nginx_line = Returned c)
  <-> 6 <= GoInt.len (Strings.Fields nginx_line).
Proof.
  apply (convertStringToContainer_returns_iff nginx_line). apply Z.leb_le; reflexivity.
Defined.

(** X2. Whatever container [convertStringToContainer] returns, its
    identifier, image, command and name are words: none is empty and none
    holds an ASCII white-space byte; its port text is empty. *)
Theorem convertStringToContainer_fields_are_words (str : string) (c : Container) :
  convertStringToContainer str = Returned c ->
  word (ID c) /\ word (Image c) /\ word (Command c) /\ word (Name c) /\ Ports c = "".
Proof.
  intros Hc. apply containerOfFields_tokens in Hc.
  destruct Hc as (Hid & Him & Hco & Hna & Hpo).
  pose proof (Fields_words str) as Hw. rewrite Forall_forall in Hw.
  split; [exact (Hw _ Hid)|]. split; [exact (Hw _ Him)|].
  split; [exact (Hw _ Hco)|]. split; [exact (Hw _ Hna) | exact Hpo].
Qed.

Lemma convertStringToContainer_fields_are_words_witness :
  word "abc123" /\ word "nginx:latest" /\ word "cmd" /\ word "web" /\ "" = "".
Proof.
  exact (convertStringToContainer_fields_are_words nginx_line
           {| ID := "abc123"; Image := "nginx:latest"; Command := "cmd";
              Created := "2 days ago"; Status := "Up 2 days 0.0.0.0:80->80/tcp";
              Ports := ""; Name := "web" |} eq_refl).
Defined.

(** ** Lines of the listing *)

(** One step of [Split] around the line feed. *)
Lemma split_from_newline (c : ascii) (s cur : string) :
  split_from (String c s) newline 0 cur
  = if Ascii.eqb (ascii_of_nat 10) c
    then cur :: split_from s newline 0 ""
    else split_from s newline 0 (cur ++ String c "")%string.
Proof.
  cbn [split_from]. unfold newline. cbn [prefix String.length Nat.sub].
  destruct (ascii_dec (ascii_of_nat 10) c) as [<-|Hne].
  - rewrite Ascii.eqb_refl. destruct s; reflexivity.
  - apply Ascii.eqb_neq in Hne. rewrite Hne. reflexivity.
Qed.

Lemma split_from_not_nil (s sep : string) :
  forall (skip : nat) (cur : string), split_from s sep skip cur <> [].
Proof.
  induction s as [|c s IH]; intros skip cur; cbn [split_from]; [discriminate|].
  destruct skip; [|apply IH]. destruct (String.prefix sep (String c s)); [discriminate|apply IH].
Qed.

Lemma Join_cons (e : string) (rest : list string) (sep : string) :
  rest <> [] -> Strings.Join (e :: rest) sep = (e ++ sep ++ Strings.Join rest sep)%string.
Proof. destruct rest; [congruence | reflexivity]. Qed.

(** Joining the pieces with line feeds gives the string back. *)
Lemma Join_split_from_newline (s : string) :
  forall cur : string,
    Strings.Join (split_from s newline 0 cur) newline = (cur ++ s)%string.
Proof.
  induction s as [|c s IH]; intros cur.
  - cbn [split_from Strings.Join]. now rewrite string_app_nil_r.
  - rewrite split_from_newline. destruct (Ascii.eqb_spec (ascii_of_nat 10) c) as [<-|Hne].
    + rewrite Join_cons by apply split_from_not_nil. rewrite IH. reflexivity.
    + rewrite IH, string_app_assoc. reflexivity.
Qed.

Lemma split_from_one_line (s : string) :
  forall cur : string, one_line cur -> Forall one_line (split_from s newline 0 cur).
Proof.
  induction s as [|c s IH]; intros cur Hcur.
  - cbn [split_from]. now repeat constructor.
  - rewrite split_from_newline. destruct (Ascii.eqb (ascii_of_nat 10) c) eqn:Hc.
    + constructor; [exact Hcur|]. apply IH. reflexivity.
    + apply IH. unfold one_line in *. rewrite has_byte_app, Hcur.
      cbn [has_byte orb]. now rewrite Hc.
Qed.

Lemma split_from_length (s : string) :
  forall cur : string,
    List.length (split_from s newline 0 cur) = S (count_newlines s).
Proof.
  induction s as [|c s IH]; intros cur; [reflexivity|].
  rewrite split_from_newline. cbn [count_newlines].
  destruct (Ascii.eqb (ascii_of_nat 10) c); [cbn [List.length]|]; now rewrite IH.
Qed.

(** Past index 0 the loop of [getContainers] appends every line. *)
Lemma collect_lines_rest (lines : list string) :
  forall (i : Z) (containers : list string),
    1 <= i -> i + GoInt.len lines <= GoInt.max_int + 1 ->
    collect_lines i lines containers = containers ++ lines.
Proof.
  induction lines as [|line rest IH]; intros i containers Hi Hlen.
  - cbn [collect_lines]. now rewrite app_nil_r.
  - cbn [collect_lines]. destruct (i =? 0) eqn:H0; [apply Z.eqb_eq in H0; lia|].
    destruct rest as [|line' rest'].
    + reflexivity.
    + rewrite !len_cons in Hlen. pose proof (len_nonneg rest').
      unfold GoInt.add. rewrite wrap_small by (pose proof min_int_neg; lia).
      rewrite IH by (rewrite ?len_cons; lia).
      now rewrite <- app_assoc.
Qed.

(** The loop of [getContainers] drops the first line only. *)
Lemma collect_lines_tail (lines : list string) :
  GoInt.fits lines -> collect_lines 0 lines [] = tl lines.
Proof.
  intros Hfit. destruct lines as [|header rest]; [reflexivity|].
  cbn [collect_lines tl]. change (0 =? 0) with true. cbv iota.
  unfold GoInt.fits in Hfit. rewrite len_cons in Hfit.
  change (GoInt.add 0 1) with 1.
  rewrite collect_lines_rest by lia. reflexivity.
Qed.

(** X3. When [docker container ls -a] succeeds, [getContainers] returns,
    with a nil error, the lines of the trimmed output but the first one:
    that header line followed by the returned lines, joined by line feeds,
    is the trimmed output again, and no returned line holds a line feed. *)
Theorem getContainers_lines (output : string) :
  GoInt.fits (Split (TrimSpace output) newline) ->
  exists header : string,
    Split (TrimSpace output) newline = header :: fst (getContainers (output, None))
    /\ snd (getContainers (output, None)) = None
    /\ Strings.Join (header :: fst (getContainers (output, None))) newline
       = TrimSpace output
    /\ Forall one_line (fst (getContainers (output, None))).
Proof.
  intros Hfit. cbn [getContainers fst snd].
  rewrite (collect_lines_tail _ Hfit).
  pose proof (Join_split_from_newline (TrimSpace output) "") as Hjoin.
  pose proof (split_from_one_line (TrimSpace output) "" eq_refl) as Hlines.
  fold (Split (TrimSpace output) newline) in Hjoin, Hlines.
  destruct (Split (TrimSpace output) newline) as [|header rest] eqn:Hsplit.
  - exfalso. exact (split_from_not_nil _ _ _ _ Hsplit).
  - exists header. cbn [tl]. repeat split; try assumption.
    now inversion Hlines.
Qed.

(** X4. When [docker container ls -a] succeeds, [getContainers] returns
    as many lines as the trimmed output has line feeds: none when the
    output is blank or is the header line alone. *)
Theorem getContainers_count (output : string) :
  GoInt.fits (Split (TrimSpace output) newline) ->
  List.length (fst (getContainers (output, None))) = count_newlines (TrimSpace output).
Proof.
  intros Hfit. cbn [getContainers fst].
  rewrite (collect_lines_tail _ Hfit).
  pose proof (split_from_length (TrimSpace output) "") as Hlen.
  fold (Split (TrimSpace output) newline) in Hlen.
  destruct (Split (TrimSpace output) newline); cbn [List.length tl] in *; lia.
Qed.

(** ** Frames *)

Section Frames.

Variables (hi lo : string -> string) (menu_cursor : Z).

(** No row is under a cursor that is off the rows still to draw. *)
Lemma render_rows_off (items : list string) :
  forall (i : Z) (s : string),
    0 <= i -> i + GoInt.len items <= GoInt.max_int ->
    menu_cursor < i \/ i + GoInt.len items <= menu_cursor ->
    render_rows hi lo menu_cursor i items s = (s ++ rows_text lo items)%string.
Proof.
  induction items as [|item rest IH]; intros i s Hi Hlen Hoff.
  - cbn [render_rows rows_text]. now rewrite string_app_nil_r.
  - cbn [render_rows rows_text]. rewrite len_cons in Hlen, Hoff.
    pose proof (len_nonneg rest). pose proof min_int_neg.
    destruct (menu_cursor =? i) eqn:Heq; [apply Z.eqb_eq in Heq; lia|].
    unfold GoInt.add. rewrite wrap_small by lia.
    rewrite IH by lia. now rewrite string_app_assoc.
Qed.


End Frames.

Lemma containerChoice_rows_render (config : Config) (menu_cursor : Z) (items : list string) :
  forall (i : Z) (s : string),
    containerChoice_rows config menu_cursor i items s
    = render_rows (container_cursor_row config) plain_row menu_cursor i items s.
Proof.
  induction items as [|item rest IH]; intros i s; [reflexivity|].
  cbn [containerChoice_rows render_rows]. cbv zeta. rewrite IH.
  destruct (menu_cursor =? i); reflexivity.
Qed.



(** X6. With the cursor off the list (a negative cursor, such as the -1 of
    the fresh menu over no container, or a cursor past the end), the frame
    of the container menu has plain rows only; over no container it is the
    screen clearing, the title and a blank line. *)
Theorem containerChoice_View_no_cursor_row (config : Config) (menu : containerChoice.t) :
  GoInt.fits (containerChoice.containers menu) ->
  containerChoice.cursor menu < 0
  \/ GoInt.len (containerChoice.containers menu) <= containerChoice.cursor menu ->
  containerChoice_View config menu
  = ((clear_screen ++ "Choose a container:" ++ newline ++ newline)
     ++ rows_text plain_row (containerChoice.containers menu))%string.
Proof.
  intros Hfit Hc. unfold containerChoice_View. cbv zeta.
  rewrite containerChoice_rows_render.
  rewrite render_rows_off; unfold GoInt.fits in *; try lia.
  unfold clear_screen. now rewrite !string_app_assoc.
Qed.


(** ** Moving the cursor *)

Lemma cursor_down_up (n c : Z) :
  n <= GoInt.max_int -> 0 <= c < n -> cursor_down n (cursor_up n c) = c.
Proof.
  intros Hn Hc. rewrite cursor_up_mod by assumption.
  rewrite cursor_down_mod by (try apply Z.mod_pos_bound; lia).
  rewrite Zplus_mod_idemp_l. replace (c - 1 + 1) with c by lia.
  apply Z.mod_small. exact Hc.
Qed.

Lemma cursor_up_down (n c : Z) :
  n <= GoInt.max_int -> 0 <= c < n -> cursor_up n (cursor_down n c) = c.
Proof.
  intros Hn Hc. rewrite cursor_down_mod by assumption.
  rewrite cursor_up_mod by (try apply Z.mod_pos_bound; lia).
  rewrite Zminus_mod_idemp_l. replace (c + 1 - 1) with c by lia.
  apply Z.mod_small. exact Hc.
Qed.

Lemma containerChoice_press (menu : containerChoice.t) :
  tea.deliver (tea.Running menu) (key "up")
  = tea.Running (containerChoice.with_cursor menu
      (cursor_up (GoInt.len (containerChoice.containers menu)) (containerChoice.cursor menu)))
  /\ tea.deliver (tea.Running menu) (key "down")
     = tea.Running (containerChoice.with_cursor menu
         (cursor_down (GoInt.len (containerChoice.containers menu))
                      (containerChoice.cursor menu))).
Proof.
  unfold key. rewrite !containerChoice_deliver, !containerChoice_Update_cases.
  split; reflexivity.
Qed.

Lemma actionChoice_press (menu : actionChoice.t) :
  tea.deliver (tea.Running menu) (key "up")
  = tea.Running (actionChoice.with_cursor menu
      (cursor_up (GoInt.len (actionChoice.actions menu)) (actionChoice.cursor menu)))
  /\ tea.deliver (tea.Running menu) (key "down")
     = tea.Running (actionChoice.with_cursor menu
         (cursor_down (GoInt.len (actionChoice.actions menu)) (actionChoice.cursor menu))).
Proof.
  unfold key. rewrite !actionChoice_deliver, !actionChoice_Update_cases.
  split; reflexivity.
Qed.

(** X8. In a menu with the cursor on an item, "up" then "down", and
    "down" then "up", leave the program running on the very same menu;
    this holds for the container menu and for the action menu. *)
Theorem up_and_down_cancel_out (cm : containerChoice.t) (am : actionChoice.t) :
  GoInt.fits (containerChoice.containers cm) ->
  0 <= containerChoice.cursor cm < GoInt.len (containerChoice.containers cm) ->
  GoInt.fits (actionChoice.actions am) ->
  0 <= actionChoice.cursor am < GoInt.len (actionChoice.actions am) ->
  tea.Run cm [key "up"; key "down"] = tea.Running cm
  /\ tea.Run cm [key "down"; key "up"] = tea.Running cm
  /\ tea.Run am [key "up"; key "down"] = tea.Running am
  /\ tea.Run am [key "down"; key "up"] = tea.Running am.
Proof.
  intros Hcf Hcc Haf Hac.
  unfold tea.Run. cbn [tea.Init containerChoice_Model actionChoice_Model
                       containerChoice.Init actionChoice.Init tea.after_cmd fold_left].
  destruct (containerChoice_press cm) as [Hcu Hcd].
  destruct (actionChoice_press am) as [Hau Had].
  rewrite Hcu, Hcd, Hau, Had.
  repeat split.
  - destruct (containerChoice_press (containerChoice.with_cursor cm
        (cursor_up (GoInt.len (containerChoice.containers cm)) (containerChoice.cursor cm))))
      as [_ ->].
    cbn [containerChoice.with_cursor containerChoice.containers containerChoice.cursor].
    rewrite cursor_down_up by assumption. destruct cm; reflexivity.
  - destruct (containerChoice_press (containerChoice.with_cursor cm
        (cursor_down (GoInt.len (containerChoice.containers cm)) (containerChoice.cursor cm))))
      as [-> _].
    cbn [containerChoice.with_cursor containerChoice.containers containerChoice.cursor].
    rewrite cursor_up_down by assumption. destruct cm; reflexivity.
  - destruct (actionChoice_press (actionChoice.with_cursor am
        (cursor_up (GoInt.len (actionChoice.actions am)) (actionChoice.cursor am))))
      as [_ ->].
    cbn [actionChoice.with_cursor actionChoice.actions actionChoice.cursor].
    rewrite cursor_down_up by assumption. destruct am; reflexivity.
  - destruct (actionChoice_press (actionChoice.with_cursor am
        (cursor_down (GoInt.len (actionChoice.actions am)) (actionChoice.cursor am))))
      as [-> _].
    cbn [actionChoice.with_cursor actionChoice.actions actionChoice.cursor].
    rewrite cursor_up_down by assumption. destruct am; reflexivity.
Qed.

(** X9. In a container menu with the cursor [c] on one of [n] items, [k]
    presses of "down" leave the program running with the cursor at
    [(c + k) mod n], and [k] presses of "up" with the cursor at
    [(c - k) mod n]; nothing else of the menu changes. *)
Theorem cursor_after_presses (menu : containerChoice.t) (k : nat) :
  GoInt.fits (containerChoice.containers menu) ->
  0 <= containerChoice.cursor menu < GoInt.len (containerChoice.containers menu) ->
  tea.Run menu (repeat (key "down") k)
  = tea.Running (containerChoice.with_cursor menu
      ((containerChoice.cursor menu + Z.of_nat k)
       mod GoInt.len (containerChoice.containers menu)))
  /\ tea.Run menu (repeat (key "up") k)
     = tea.Running (containerChoice.with_cursor menu
         ((containerChoice.cursor menu - Z.of_nat k)
          mod GoInt.len (containerChoice.containers menu))).
Proof.
  intros Hfit Hc.
  unfold tea.Run. cbn [tea.Init containerChoice_Model containerChoice.Init tea.after_cmd].
  split.
  - rewrite (containerChoice_arrows "down" cursor_down)
      by (intros; now rewrite containerChoice_Update_cases).
    now rewrite iter_cursor_down.
  - rewrite (containerChoice_arrows "up" cursor_up)
      by (intros; now rewrite containerChoice_Update_cases).
    now rewrite iter_cursor_up.
Qed.

(** ** What the menus can come to *)

(** A message that is not the enter key: no panic, no selection, same
    items. *)
Lemma containerChoice_Update_not_enter (menu : containerChoice.t) (msg : tea.Msg) :
  msg <> tea.KeyMsg "enter" ->
  exists (menu' : containerChoice.t) (cmd : option tea.Cmd),
    containerChoice.Update menu msg = Returned (menu', cmd)
    /\ containerChoice.containers menu' = containerChoice.containers menu
    /\ containerChoice.selectedContainer menu' = containerChoice.selectedContainer menu
    /\ (cmd = Some tea.Quit -> menu' = menu).
Proof.
  intros Hmsg. rewrite containerChoice_Update_cases.
  destruct msg as [k|]; [cbv zeta | now eauto 8].
  destruct (is_cancel k); [now eauto 8|].
  destruct (String.eqb k "up"); [do 2 eexists; repeat split; discriminate|].
  destruct (String.eqb k "down"); [do 2 eexists; repeat split; discriminate|].
  destruct (String.eqb_spec k "enter") as [->|_]; [congruence|].
  do 2 eexists; repeat split; discriminate.
Qed.

Lemma actionChoice_Update_not_enter (menu : actionChoice.t) (msg : tea.Msg) :
  msg <> tea.KeyMsg "enter" ->
  exists (menu' : actionChoice.t) (cmd : option tea.Cmd),
    actionChoice.Update menu msg = Returned (menu', cmd)
    /\ actionChoice.actions menu' = actionChoice.actions menu
    /\ actionChoice.selectedAction menu' = actionChoice.selectedAction menu
    /\ actionChoice.selectedContainer menu' = actionChoice.selectedContainer menu
    /\ (cmd = Some tea.Quit -> menu' = menu).
Proof.
  intros Hmsg. rewrite actionChoice_Update_cases.
  destruct msg as [k|]; [cbv zeta | now eauto 8].
  destruct (is_cancel k); [now eauto 8|].
  destruct (String.eqb k "up"); [do 2 eexists; repeat split; discriminate|].
  destruct (String.eqb k "down"); [do 2 eexists; repeat split; discriminate|].
  destruct (String.eqb_spec k "enter") as [->|_]; [congruence|].
  do 2 eexists; repeat split; discriminate.
Qed.

(** X10. Only the enter key can make [Update] panic or record a
    selection: on any other message, whatever the cursor and even over no
    item, [Update] of either menu returns a menu with the same items and
    the same selection, and when it asks to quit the menu is unchanged. *)
Theorem only_enter_selects (cm : containerChoice.t) (am : actionChoice.t) (msg : tea.Msg) :
  msg <> tea.KeyMsg "enter" ->
  (exists (cm' : containerChoice.t) (cmd : option tea.Cmd),
     containerChoice.Update cm msg = Returned (cm', cmd)
     /\ containerChoice.containers cm' = containerChoice.containers cm
     /\ containerChoice.selectedContainer cm' = containerChoice.selectedContainer cm
     /\ (cmd = Some tea.Quit -> cm' = cm))
  /\ (exists (am' : actionChoice.t) (cmd : option tea.Cmd),
        actionChoice.Update am msg = Returned (am', cmd)
        /\ actionChoice.actions am' = actionChoice.actions am
        /\ actionChoice.selectedAction am' = actionChoice.selectedAction am
        /\ actionChoice.selectedContainer am' = actionChoice.selectedContainer am
        /\ (cmd = Some tea.Quit -> am' = am)).
Proof.
  intros Hmsg. split.
  - now apply containerChoice_Update_not_enter.
  - now apply actionChoice_Update_not_enter.
Qed.

(** The programs keep their invariant at every event. *)
Lemma container_program_step (cs : list string) (seen : list tea.input)
    (st : tea.program containerChoice.t) (i : tea.input) :
  GoInt.fits cs ->
  container_program_ok cs seen st ->
  container_program_ok cs (seen ++ [i]) (tea.deliver st i).
Proof.
  intros Hfit Hst. destruct st as [menu|menu [err|]].
  - destruct Hst as (Hitems & Hcur & Hsel).
    destruct i as [msg|err]; [|cbn; apply in_or_app; right; now left].
    rewrite containerChoice_deliver, containerChoice_Update_cases.
    destruct msg as [k|]; [cbv zeta | now repeat split].
    destruct (is_cancel k); [now left|].
    rewrite Hitems.
    destruct (String.eqb k "up").
    { repeat split; try assumption; now apply cursor_up_in_range. }
    destruct (String.eqb k "down").
    { repeat split; try assumption; now apply cursor_down_in_range. }
    destruct (String.eqb k "enter"); [|now repeat split].
    rewrite (index_in_range cs _ "" Hcur). cbn [bind tea.after_cmd].
    right. cbn. apply nth_In. unfold GoInt.len in Hcur. lia.
  - cbn in *. apply in_or_app. now left.
  - exact Hst.
Qed.

Lemma action_program_step (c : Container) (seen : list tea.input)
    (st : tea.program actionChoice.t) (i : tea.input) :
  action_program_ok c seen st -> action_program_ok c (seen ++ [i]) (tea.deliver st i).
Proof.
  intros Hst. destruct st as [menu|menu [err|]].
  - destruct Hst as (Hitems & Hcur & Hsel & Hcont).
    destruct i as [msg|err]; [|cbn; apply in_or_app; right; now left].
    rewrite actionChoice_deliver, actionChoice_Update_cases.
    destruct msg as [k|]; [cbv zeta | now repeat split].
    destruct (is_cancel k); [now split; [left|]|].
    rewrite Hitems. change (GoInt.len ["Exit"; "Copy container ID"]) with 2.
    destruct (String.eqb k "up").
    { pose proof (cursor_up_in_range 2 _ ltac:(apply Z.leb_le; reflexivity) Hcur).
      repeat split; try assumption; cbn; lia. }
    destruct (String.eqb k "down").
    { pose proof (cursor_down_in_range 2 _ ltac:(apply Z.leb_le; reflexivity) Hcur).
      repeat split; try assumption; cbn; lia. }
    destruct (String.eqb k "enter"); [|now repeat split].
    rewrite (index_in_range ["Exit"; "Copy container ID"] _ "" Hcur).
    cbn [bind tea.after_cmd].
    split; [|exact Hcont]. right. cbn [actionChoice.selectedAction
      actionChoice.with_selectedAction]. apply nth_In. cbn [List.length]. lia.
  - cbn in *. apply in_or_app. now left.
  - exact Hst.
Qed.

Lemma container_program_fold (cs : list string) (inputs : list tea.input) :
  GoInt.fits cs ->
  forall (seen : list tea.input) (st : tea.program containerChoice.t),
    container_program_ok cs seen st ->
    container_program_ok cs (seen ++ inputs) (fold_left tea.deliver inputs st).
Proof.
  intros Hfit. induction inputs as [|i inputs IH]; intros seen st Hst.
  - now rewrite app_nil_r.
  - cbn [fold_left]. replace (seen ++ i :: inputs) with ((seen ++ [i]) ++ inputs)
      by (now rewrite <- app_assoc).
    apply IH. now apply container_program_step.
Qed.

Lemma action_program_fold (c : Container) (inputs : list tea.input) :
  forall (seen : list tea.input) (st : tea.program actionChoice.t),
    action_program_ok c seen st ->
    action_program_ok c (seen ++ inputs) (fold_left tea.deliver inputs st).
Proof.
  induction inputs as [|i inputs IH]; intros seen st Hst.
  - now rewrite app_nil_r.
  - cbn [fold_left]. replace (seen ++ i :: inputs) with ((seen ++ [i]) ++ inputs)
      by (now rewrite <- app_assoc).
    apply IH. now apply action_program_step.
Qed.

Lemma container_program_run (cs : list string) (inputs : list tea.input) :
  GoInt.fits cs -> cs <> [] ->
  container_program_ok cs inputs (tea.Run (initialContainerModel cs) inputs).
Proof.
  intros Hfit Hne. unfold tea.Run.
  cbn [tea.Init containerChoice_Model containerChoice.Init tea.after_cmd].
  apply (container_program_fold cs inputs Hfit []).
  split; [reflexivity|]. split; [|reflexivity].
  rewrite initialContainerModel_cursor by assumption.
  destruct cs; [congruence|]. rewrite len_cons. pose proof (len_nonneg cs). lia.
Qed.

Lemma action_program_run (c : Container) (inputs : list tea.input) :
  action_program_ok c inputs (tea.Run (initialActionModel c) inputs).
Proof.
  unfold tea.Run. cbn [tea.Init actionChoice_Model actionChoice.Init tea.after_cmd].
  apply (action_program_fold c inputs []).
  repeat split; cbn; lia.
Qed.

(** What [chooseAction] can come to. *)
Lemma chooseAction_cases (container : Container) (inputs : list tea.input) :
  chooseAction container inputs = Pending
  \/ (exists err : error,
        In (tea.Fail err) inputs /\ chooseAction container inputs = Done ("", Some err))
  \/ chooseAction container inputs = Done ("", None)
  \/ chooseAction container inputs = Done ("Exit", None)
  \/ chooseAction container inputs = Done ("Copy container ID", None).
Proof.
  pose proof (action_program_run container inputs) as Hok.
  unfold chooseAction.
  destruct (tea.Run (initialActionModel container) inputs) as [menu|menu [err|]].
  - now left.
  - right; left. now exists err.
  - destruct Hok as [[Hsel|Hsel] _]; rewrite ?Hsel; [tauto|].
    destruct Hsel as [<-|[<-|[]]]; tauto.
Qed.

(** What [chooseContainer] can come to over a list that is not empty. *)
Lemma chooseContainer_cases (containers : list string) (inputs : list tea.input) :
  GoInt.fits containers -> containers <> [] ->
  chooseContainer containers inputs = Pending
  \/ (exists err : error,
        In (tea.Fail err) inputs /\ chooseContainer containers inputs = Done ("", Some err))
  \/ chooseContainer containers inputs = Done ("", None)
  \/ (exists item : string,
        In item containers /\ chooseContainer containers inputs = Done (item, None)).
Proof.
  intros Hfit Hne.
  pose proof (container_program_run containers inputs Hfit Hne) as Hok.
  unfold chooseContainer.
  destruct (tea.Run (initialContainerModel containers) inputs) as [menu|menu [err|]].
  - now left.
  - right; left. now exists err.
  - destruct Hok as [Hsel|Hsel]; [rewrite Hsel; tauto|].
    right; right; right. now exists (containerChoice.selectedContainer menu).
Qed.

(** X11. Whatever the events, [chooseAction] never panics, and [Update]
    never panics under it: it is still waiting, or it returns the empty
    string with an error that the event source gave, or it returns with a
    nil error the empty string, "Exit" or "Copy container ID". *)
Theorem chooseAction_returns_a_label (container : Container) (inputs : list tea.input) :
  chooseAction container inputs = Pending
  \/ (exists err : error,
        In (tea.Fail err) inputs /\ chooseAction container inputs = Done ("", Some err))
  \/ chooseAction container inputs = Done ("", None)
  \/ chooseAction container inputs = Done ("Exit", None)
  \/ chooseAction container inputs = Done ("Copy container ID", None).
Proof. apply chooseAction_cases. Qed.

(** X12. Over a list that is not empty, whatever the events,
    [chooseContainer] never panics, and [Update] never panics under it: it
    is still waiting, or it returns the empty string with an error that
    the event source gave, or it returns with a nil error the empty string
    or one of the listed lines. *)
Theorem chooseContainer_returns_a_line (containers : list string) (inputs : list tea.input) :
  GoInt.fits containers -> containers <> [] ->
  chooseContainer containers inputs = Pending
  \/ (exists err : error,
        In (tea.Fail err) inputs /\ chooseContainer containers inputs = Done ("", Some err))
  \/ chooseContainer containers inputs = Done ("", None)
  \/ (exists item : string,
        In item containers /\ chooseContainer containers inputs = Done (item, None)).
Proof. apply chooseContainer_cases. Qed.

Lemma empty_program_step (st : tea.program containerChoice.t) (i : tea.input) :
  empty_program_ok st -> empty_program_ok (tea.deliver st i).
Proof.
  intros Hst. destruct st as [menu|menu err]; [|exact Hst].
  destruct Hst as (Hitems & Hcur & Hsel).
  destruct i as [msg|err]; [|exact Hsel].
  rewrite containerChoice_deliver, containerChoice_Update_cases.
  destruct msg as [k|]; [cbv zeta | now repeat split].
  destruct (is_cancel k); [exact Hsel|].
  assert (Hcases : containerChoice.cursor menu = -1 \/ containerChoice.cursor menu = 0) by lia.
  rewrite Hitems.
  destruct (String.eqb k "up").
  { destruct Hcases as [-> | ->]; cbn; repeat split; auto; lia. }
  destruct (String.eqb k "down").
  { destruct Hcases as [-> | ->]; cbn; repeat split; auto; lia. }
  destruct (String.eqb k "enter"); [|now repeat split].
  rewrite index_out_of_range by (unfold GoInt.len; cbn [List.length]; lia).
  exact Hsel.
Qed.

Lemma empty_program_run (inputs : list tea.input) :
  empty_program_ok (tea.Run (initialContainerModel []) inputs).
Proof.
  unfold tea.Run. cbn [tea.Init containerChoice_Model containerChoice.Init tea.after_cmd].
  assert (Hinit : empty_program_ok (tea.Running (initialContainerModel []))).
  { cbn. repeat split; lia. }
  revert Hinit. generalize (tea.Running (initialContainerModel [])).
  induction inputs as [|i inputs IH]; intros st Hst; [exact Hst|].
  cbn [fold_left]. apply IH. now apply empty_program_step.
Qed.

(** A steady event keeps either program running. *)
Lemma container_steady_step (menu : containerChoice.t) (i : tea.input) :
  steady i = true ->
  exists menu' : containerChoice.t, tea.deliver (tea.Running menu) i = tea.Running menu'.
Proof.
  intros Hi. destruct i as [msg|err]; [|discriminate Hi].
  rewrite containerChoice_deliver, containerChoice_Update_cases.
  destruct msg as [k|]; [cbv zeta | now eexists].
  cbn [steady] in Hi.
  destruct (is_cancel k); [discriminate Hi|].
  destruct (String.eqb k "up"); [now eexists|].
  destruct (String.eqb k "down"); [now eexists|].
  destruct (String.eqb k "enter"); [discriminate Hi | now eexists].
Qed.

Lemma action_steady_step (menu : actionChoice.t) (i : tea.input) :
  steady i = true ->
  exists menu' : actionChoice.t, tea.deliver (tea.Running menu) i = tea.Running menu'.
Proof.
  intros Hi. destruct i as [msg|err]; [|discriminate Hi].
  rewrite actionChoice_deliver, actionChoice_Update_cases.
  destruct msg as [k|]; [cbv zeta | now eexists].
  cbn [steady] in Hi.
  destruct (is_cancel k); [discriminate Hi|].
  destruct (String.eqb k "up"); [now eexists|].
  destruct (String.eqb k "down"); [now eexists|].
  destruct (String.eqb k "enter"); [discriminate Hi | now eexists].
Qed.

Lemma container_steady_run (pre : list tea.input) :
  forallb steady pre = true ->
  forall menu : containerChoice.t,
    exists menu' : containerChoice.t,
      fold_left tea.deliver pre (tea.Running menu) = tea.Running menu'.
Proof.
  induction pre as [|i pre IH]; intros Hpre menu; [now eexists|].
  cbn [forallb] in Hpre. apply andb_prop in Hpre. destruct Hpre as [Hi Hpre].
  cbn [fold_left]. destruct (container_steady_step menu i Hi) as [menu1 ->].
  now apply IH.
Qed.

Lemma action_steady_run (pre : list tea.input) :
  forallb steady pre = true ->
  forall menu : actionChoice.t,
    exists menu' : actionChoice.t,
      fold_left tea.deliver pre (tea.Running menu) = tea.Running menu'.
Proof.
  induction pre as [|i pre IH]; intros Hpre menu; [now eexists|].
  cbn [forallb] in Hpre. apply andb_prop in Hpre. destruct Hpre as [Hi Hpre].
  cbn [fold_left]. destruct (action_steady_step menu i Hi) as [menu1 ->].
  now apply IH.
Qed.

(** X13. Over no container [chooseContainer] never returns a selection:
    whatever the events, it is still waiting or it returns the empty
    string, with a nil error after a cancel key and with an error
    otherwise; and the enter key, pressed after arrows and other messages,
    makes it return the empty string together with the error the runtime
    makes of the recovered index panic. *)
Theorem chooseContainer_nothing_to_choose (inputs pre post : list tea.input) :
  forallb steady pre = true ->
  (chooseContainer [] inputs = Pending
   \/ (exists err : error, chooseContainer [] inputs = Done ("", Some err))
   \/ chooseContainer [] inputs = Done ("", None))
  /\ chooseContainer [] (pre ++ key "enter" :: post) = Done ("", Some tea.ErrProgramPanic).
Proof.
  intros Hpre. split.
  - pose proof (empty_program_run inputs) as Hok. unfold chooseContainer.
    destruct (tea.Run (initialContainerModel []) inputs) as [menu|menu [err|]].
    + now left.
    + right; left. now exists err.
    + cbn in Hok. rewrite Hok. tauto.
  - pose proof (empty_program_run pre) as Hok. unfold chooseContainer.
    rewrite Run_app. revert Hok.
    change (tea.Run (initialContainerModel []) pre)
      with (fold_left tea.deliver pre (tea.Running (initialContainerModel []))).
    destruct (container_steady_run pre Hpre (initialContainerModel [])) as [menu ->].
    intros (Hitems & Hcur & _). cbn [fold_left]. unfold key.
    rewrite containerChoice_deliver, containerChoice_Update_cases. cbv zeta.
    change (is_cancel "enter") with false. cbn [String.eqb Ascii.eqb Bool.eqb].
    rewrite Hitems, index_out_of_range by (unfold GoInt.len; cbn [List.length]; lia).
    cbn [bind]. now rewrite deliver_stopped.
Qed.

(** X14. When the event source fails while a menu is open (after arrows
    and other messages, before any cancel or enter key), [chooseContainer]
    and [chooseAction] return the empty string together with that error,
    whatever the list, the cursor and the later events. *)
Theorem event_failure_is_returned
    (containers : list string) (container : Container)
    (pre post : list tea.input) (err : error) :
  forallb steady pre = true ->
  chooseContainer containers (pre ++ tea.Fail err :: post) = Done ("", Some err)
  /\ chooseAction container (pre ++ tea.Fail err :: post) = Done ("", Some err).
Proof.
  intros Hpre. split.
  - unfold chooseContainer. rewrite Run_app.
    change (tea.Run (initialContainerModel containers) pre)
      with (fold_left tea.deliver pre (tea.Running (initialContainerModel containers))).
    destruct (container_steady_run pre Hpre (initialContainerModel containers)) as [menu ->].
    cbn [fold_left tea.deliver]. now rewrite deliver_stopped.
  - unfold chooseAction. rewrite Run_app.
    change (tea.Run (initialActionModel container) pre)
      with (fold_left tea.deliver pre (tea.Running (initialActionModel container))).
    destruct (action_steady_run pre Hpre (initialActionModel container)) as [menu ->].
    cbn [fold_left tea.deliver]. now rewrite deliver_stopped.
Qed.

(** ** The action resolver *)

(** [doAction], label by label. *)
Lemma doAction_cases (pbcopy : string -> option error) (action : string) (c : Container) :
  doAction pbcopy action c
  = if String.eqb action "Exit" then ([], Exit 0)
    else if String.eqb action "Copy container ID" then
      match pbcopy (ID c) with
      | Some err =>
          ([RunPbcopy (ID c); PrintlnError ("error copying container ID: " ++ err)%string],
           Exit 1)
      | None =>
          ([RunPbcopy (ID c); Println "Container ID copied to clipboard"], Done None)
      end
    else ([], Done None).
Proof.
  unfold doAction, copyContainerId.
  destruct (String.eqb action "Exit"); [reflexivity|].
  destruct (String.eqb action "Copy container ID"); [|reflexivity].
  destruct (pbcopy (ID c)); reflexivity.
Qed.

(** X15. [doAction] never returns an error: whatever the label, the
    container and the clipboard, it returns nil or ends the process, so
    the error branch of its caller cannot be taken. *)
Theorem doAction_never_returns_an_error
    (pbcopy : string -> option error) (action : string) (c : Container) :
  snd (doAction pbcopy action c) = Done None
  \/ snd (doAction pbcopy action c) = Exit 0
  \/ snd (doAction pbcopy action c) = Exit 1.
Proof.
  rewrite doAction_cases.
  destruct (String.eqb action "Exit"); [tauto|].
  destruct (String.eqb action "Copy container ID"); [|tauto].
  destruct (pbcopy (ID c)); tauto.
Qed.

(** X16. [doAction] runs [pbcopy] for the label "Copy container ID" only,
    spelled exactly so, and then once, on the identifier of the container;
    for any other label, the empty one of a cancelled menu included, it
    never runs. *)
Theorem doAction_runs_pbcopy_once
    (pbcopy : string -> option error) (action : string) (c : Container) :
  pbcopy_runs (fst (doAction pbcopy action c))
  = if String.eqb action "Copy container ID" then [ID c] else [].
Proof.
  rewrite doAction_cases.
  destruct (String.eqb_spec action "Exit") as [->|_]; [reflexivity|].
  destruct (String.eqb action "Copy container ID"); [|reflexivity].
  destruct (pbcopy (ID c)); reflexivity.
Qed.

(** ** The process *)

Lemma io_bind_ret_l {A B : Type} (a : A) (k : A -> io B) : io_bind (io_ret a) k = k a.
Proof. unfold io_bind, io_ret. destruct (k a). reflexivity. Qed.

Lemma io_bind_emit {B : Type} (e : event) (k : unit -> io B) :
  io_bind (emit e) k = (e :: fst (k tt), snd (k tt)).
Proof. unfold io_bind, emit. destruct (k tt). reflexivity. Qed.

Lemma io_bind_assoc {A B C : Type} (m : io A) (k : A -> io B) (h : B -> io C) :
  io_bind (io_bind m k) h = io_bind m (fun a => io_bind (k a) h).
Proof.
  destruct m as [t [a|p|code|]]; try reflexivity.
  unfold io_bind at 2 3. destruct (k a) as [t1 [b|p|code|]]; cbn [io_bind]; try reflexivity.
  destruct (h b) as [t2 r]. now rewrite app_assoc.
Qed.

(** Cancelling a menu: the selection functions return the empty string. *)
Lemma choose_cancelled (containers : list string) (container : Container)
    (pre post : list tea.input) (k : string) :
  is_cancel k = true -> forallb quiet pre = true ->
  chooseContainer containers (pre ++ key k :: post) = Done ("", None)
  /\ chooseAction container (pre ++ key k :: post) = Done ("", None).
Proof.
  intros Hk Hpre. split.
  - unfold chooseContainer. rewrite Run_app. cbn [fold_left].
    pose proof (container_quiet_run pre (tea.Running (initialContainerModel containers))
                  Hpre eq_refl) as Hst.
    change (tea.Run (initialContainerModel containers) pre)
      with (fold_left tea.deliver pre (tea.Running (initialContainerModel containers))).
    destruct (fold_left tea.deliver pre (tea.Running (initialContainerModel containers)))
      as [menu|menu [err|]]; cbn [container_unselected] in Hst; try contradiction.
    + unfold key. rewrite containerChoice_deliver, containerChoice_Update_cases.
      cbv zeta. rewrite Hk. cbn [tea.after_cmd]. rewrite deliver_stopped.
      now rewrite Hst.
    + cbn [tea.deliver]. rewrite deliver_stopped. now rewrite Hst.
  - unfold chooseAction. rewrite Run_app. cbn [fold_left].
    pose proof (action_quiet_run pre (tea.Running (initialActionModel container))
                  Hpre eq_refl) as Hst.
    change (tea.Run (initialActionModel container) pre)
      with (fold_left tea.deliver pre (tea.Running (initialActionModel container))).
    destruct (fold_left tea.deliver pre (tea.Running (initialActionModel container)))
      as [menu|menu [err|]]; cbn [action_unselected] in Hst; try contradiction.
    + unfold key. rewrite actionChoice_deliver, actionChoice_Update_cases.
      cbv zeta. rewrite Hk. cbn [tea.after_cmd]. rewrite deliver_stopped.
      now rewrite Hst.
    + cbn [tea.deliver]. rewrite deliver_stopped. now rewrite Hst.
Qed.

Lemma args_with_flag (prog flag : string) (rest : list string) :
  (1 <? GoInt.len (prog :: flag :: rest)) = true
  /\ index (prog :: flag :: rest) 1 = Returned flag.
Proof.
  assert (Hlen : 1 < GoInt.len (prog :: flag :: rest)).
  { rewrite !len_cons. pose proof (len_nonneg rest). lia. }
  split; [now apply Z.ltb_lt|].
  rewrite (index_in_range _ 1 "") by lia. reflexivity.
Qed.

Lemma args_without_flag (args : list string) :
  (List.length args <= 1)%nat -> (1 <? GoInt.len args) = false.
Proof. intros Hlen. apply Z.ltb_ge. unfold GoInt.len. lia. Qed.

(** After the startup checks [main] goes on with the listed lines. *)
Ltac pass_startup w Hstart :=
  destruct Hstart as (?Hjson & ?Hversion & ?Hls & ?Hlsa);
  unfold main, listed in *; unfold loadConfig, isDockerInstalled, isDockerRunning;
  rewrite Hjson, Hversion, Hls; cbn [negb];
  rewrite !io_bind_ret_l;
  destruct (docker_container_ls_a w) as [?output ?lserr]; cbn [snd] in Hlsa;
  rewrite Hlsa in *;
  cbn [getContainers fst] in *; rewrite !io_bind_ret_l.

(** X17. When a container menu is cancelled, in the interactive mode as
    with the run flag, [main] panics: the empty selection is handed to
    [convertStringToContainer], whose first index is out of range; nothing
    is printed and no action menu opens. *)
Theorem main_panics_on_cancelled_container_menu
    (w : world) (pre post : list tea.input) (k : string) :
  started w ->
  opens_menus w = true ->
  container_events w = pre ++ key k :: post ->
  is_cancel k = true ->
  forallb quiet pre = true ->
  main w = ([], Abort (IndexOutOfRange 0 0)).
Proof.
  intros Hstart Hmode Hev Hk Hpre.
  pass_startup w Hstart.
  destruct (choose_cancelled
              (collect_lines 0 (Split (TrimSpace output) newline) []) no_container
              pre post k Hk Hpre) as [Hchoose _].
  unfold opens_menus in Hmode.
  destruct (os_Args w) as [|prog [|flag rest]] eqn:Hargs.
  - rewrite args_without_flag by (cbn; lia). rewrite io_bind_ret_l.
    rewrite Hev, Hchoose. reflexivity.
  - rewrite args_without_flag by (cbn; lia). rewrite io_bind_ret_l.
    rewrite Hev, Hchoose. reflexivity.
  - destruct (args_with_flag prog flag rest) as [-> Hflag].
    unfold flagMode. rewrite Hargs, Hflag. cbn [of_outcome]. rewrite io_bind_ret_l.
    rewrite Hmode, Hev, Hchoose. reflexivity.
Qed.

(** X18. When a startup check fails (the configuration, then the docker
    binary, then the docker daemon, then the listing, in this order),
    [main] writes the one line of the first failing check and exits with
    status 1, whatever the arguments, the events and the clipboard. *)
Theorem main_exits_on_failed_startup (w : world) (line : event) :
  startup_diagnostic w = Some line -> main w = ([line], Exit 1).
Proof.
  unfold startup_diagnostic, main, loadConfig, isDockerInstalled, isDockerRunning.
  destruct (json_Unmarshal w) as [err|].
  { intros H. injection H as <-. reflexivity. }
  rewrite io_bind_ret_l.
  destruct (docker_version w) as [err|].
  { intros H. injection H as <-. reflexivity. }
  cbn [negb]. rewrite io_bind_ret_l.
  destruct (docker_container_ls w) as [err|].
  { intros H. injection H as <-. reflexivity. }
  cbn [negb]. rewrite io_bind_ret_l.
  destruct (docker_container_ls_a w) as [output [err|]]; cbn [snd getContainers].
  { intros H. injection H as <-. reflexivity. }
  discriminate.
Qed.






Ltac no_pbcopy_events :=
  repeat first [ apply Forall_nil | apply Forall_cons; [intros ? ?; discriminate|] ].

(** [flagMode] prints, and nothing else. *)
Lemma flagMode_no_pbcopy (w : world) (containers : list string) :
  no_pbcopy (fst (flagMode w containers)).
Proof.
  unfold no_pbcopy, flagMode.
  destruct (index (os_Args w) 1) as [flag|p]; cbn [of_outcome]; [|now constructor].
  rewrite io_bind_ret_l.
  destruct (String.eqb flag "--run" || String.eqb flag "-r").
  - destruct (chooseContainer containers (container_events w)) as [[sel [e|]]|p|code|];
      cbn; try now no_pbcopy_events.
    destruct (convertStringToContainer sel) as [c|p]; cbn; [|now constructor].
    destruct (chooseAction c (action_events w)) as [[a [e|]]|p|code|];
      cbn; now no_pbcopy_events.
  - destruct (String.eqb flag "--help" || String.eqb flag "-h"); [cbn; now no_pbcopy_events|].
    destruct (String.eqb flag "--version" || String.eqb flag "-v"); cbn; now no_pbcopy_events.
Qed.

Lemma exit_after {B : Type} (m : io unit) (k : unit -> io B) :
  fst (io_bind (io_bind m (fun _ => os_Exit 0)) k) = fst m
  /\ forall b : B, snd (io_bind (io_bind m (fun _ => os_Exit 0)) k) <> Done b.
Proof.
  destruct m as [t [[]|p|code|]]; cbn; rewrite ?app_nil_r; split;
    try reflexivity; discriminate.
Qed.

(** X22. With any argument after the program name, the run flag
    included, [main] never runs [pbcopy] and never returns normally: it
    ends inside [flagMode] or exits right after it, so the action chosen
    with the run flag is printed but not carried out. *)
Theorem main_with_a_flag_resolves_nothing (w : world) :
  started w ->
  (1 < List.length (os_Args w))%nat ->
  no_pbcopy (fst (main w)) /\ forall u : unit, snd (main w) <> Done u.
Proof.
  intros Hstart Hargs. pass_startup w Hstart.
  destruct (os_Args w) as [|prog [|flag rest]] eqn:Hw; cbn [List.length] in Hargs; try lia.
  destruct (args_with_flag prog flag rest) as [-> _].
  match goal with
  | |- context [io_bind (io_bind (flagMode w ?cs) _) ?k] =>
      destruct (exit_after (flagMode w cs) k) as [-> Hend];
      split; [apply flagMode_no_pbcopy | exact Hend]
  end.
Qed.


(** X25. With the run flag, when a line was chosen and parsed and a label
    was chosen in the action menu, [main] prints the one line "Action
    selected: " followed by the label and exits with status 0: the lines
    about the container are not printed and the action is not carried
    out. *)
Theorem main_with_run_flag_prints_the_action
    (w : world) (prog flag : string) (rest : list string)
    (line : string) (c : Container) (action : string) :
  started w ->
  os_Args w = prog :: flag :: rest ->
  String.eqb flag "--run" || String.eqb flag "-r" = true ->
  chooseContainer (listed w) (container_events w) = Done (line, None) ->
  convertStringToContainer line = Returned c ->
  chooseAction c (action_events w) = Done (action, None) ->
  main w = ([Eff (Println ("Action selected: " ++ " " ++ action)%string)], Exit 0).
Proof.
  intros Hstart Hargs Hrun Hchoose Hparse Haction. pass_startup w Hstart.
  rewrite Hargs. destruct (args_with_flag prog flag rest) as [-> Hflag].
  unfold flagMode. rewrite Hargs, Hflag. cbn [of_outcome]. rewrite io_bind_ret_l, Hrun.
  rewrite Hchoose. unfold of_call. cbn [io_bind app].
  rewrite io_bind_ret_l, Hparse. cbn [of_outcome]. rewrite io_bind_ret_l.
  rewrite Haction. reflexivity.
Qed.

(** ** The end of the listing *)

Lemma space_width_last_0 (c : ascii) (s : string) :
  space_width_last (String c s) = 0%nat -> is_ascii_space c = false.
Proof.
  unfold space_width_last, is_ascii_space. cbv zeta.
  destruct ((Nat.leb 9 (nat_of_ascii c) && Nat.leb (nat_of_ascii c) 13)
            || Nat.eqb (nat_of_ascii c) 32); [discriminate | reflexivity].
Qed.

(** What is left after trimming the front is empty or starts with a byte
    that is no ASCII space. *)
Lemma trim_front_head (width : string -> nat) :
  (forall (c : ascii) (s : string), width (String c s) = 0%nat -> is_ascii_space c = false) ->
  forall (s : string) (skip : nat),
    trim_front width s skip = ""
    \/ exists (c : ascii) (r : string),
         trim_front width s skip = String c r /\ is_ascii_space c = false.
Proof.
  intros Hwidth. induction s as [|c s IH]; intros skip; [now left|].
  cbn [trim_front]. destruct skip as [|k]; [|apply IH].
  destruct (width (String c s)) as [|k] eqn:Hw; [|apply IH].
  right. exists c, s. split; [reflexivity | exact (Hwidth c s Hw)].
Qed.

Lemma last_byte_snoc (l : list ascii) (c : ascii) :
  last_byte (string_of_list_ascii (l ++ [c])) = Some c.
Proof.
  induction l as [|x l IH]; [reflexivity|].
  cbn [List.app string_of_list_ascii last_byte]. rewrite IH.
  destruct (string_of_list_ascii (l ++ [c])) eqn:E; [|reflexivity].
  destruct l; discriminate E.
Qed.

Lemma last_byte_reverse (c : ascii) (r : string) :
  last_byte (reverse (String c r)) = Some c.
Proof. unfold reverse. cbn [list_ascii_of_string List.rev]. apply last_byte_snoc. Qed.

(** The trimmed text is empty or ends with a byte that is no ASCII space. *)
Lemma TrimSpace_last_byte (s : string) :
  TrimSpace s = ""
  \/ exists c : ascii, last_byte (TrimSpace s) = Some c /\ is_ascii_space c = false.
Proof.
  unfold TrimSpace. cbv zeta.
  destruct (trim_front_head space_width_last space_width_last_0
              (reverse (trim_front Strings.space_width s 0)) 0) as [->|(c & r & -> & Hc)].
  - now left.
  - right. exists c. split; [apply last_byte_reverse | exact Hc].
Qed.

Lemma last_byte_cons (c : ascii) (s : string) (d : ascii) :
  last_byte s = Some d -> last_byte (String c s) = Some d.
Proof. destruct s; [discriminate | trivial]. Qed.

(** An empty last piece means an empty text or a final line feed. *)
Lemma split_from_last_empty (s : string) :
  forall cur : string,
    last (split_from s newline 0 cur) "" = "" ->
    (s = "" /\ cur = "") \/ last_byte s = Some (ascii_of_nat 10).
Proof.
  induction s as [|c s IH]; intros cur Hlast.
  - left. split; [reflexivity | exact Hlast].
  - right. rewrite split_from_newline in Hlast.
    destruct (Ascii.eqb_spec (ascii_of_nat 10) c) as [<-|Hne].
    + assert (Hrest : last (split_from s newline 0 "") "" = "").
      { destruct (split_from s newline 0 "") eqn:E; [|exact Hlast].
        exfalso. exact (split_from_not_nil _ _ _ _ E). }
      destruct (IH _ Hrest) as [[-> _]|Hs]; [reflexivity | now apply last_byte_cons].
    + destruct (IH _ Hlast) as [[_ Hcur]|Hs]; [|now apply last_byte_cons].
      exfalso. exact (app_byte_not_empty _ _ Hcur).
Qed.

(** X24. When [docker container ls -a] succeeds and [getContainers]
    returns at least one line, the last line returned is not empty: the
    line feed that ends the output is trimmed before the split. *)
Theorem getContainers_last_line_not_empty (output : string) :
  GoInt.fits (Split (TrimSpace output) newline) ->
  fst (getContainers (output, None)) <> [] ->
  last (fst (getContainers (output, None))) "" <> "".
Proof.
  intros Hfit Hne Hlast. cbn [getContainers fst] in *.
  rewrite (collect_lines_tail _ Hfit) in *.
  unfold Split in *.
  destruct (split_from (TrimSpace output) newline 0 "") as [|header rest] eqn:Hsplit;
    [now apply Hne|].
  cbn [tl] in *.
  assert (Hall : last (split_from (TrimSpace output) newline 0 "") "" = "").
  { rewrite Hsplit. destruct rest; [now elim Hne | exact Hlast]. }
  destruct (split_from_last_empty _ _ Hall) as [[Hempty _]|Hnl].
  - rewrite Hempty in Hsplit. cbn in Hsplit. injection Hsplit as _ <-. now apply Hne.
  - destruct (TrimSpace_last_byte output) as [Hempty|(c & Hc & Hspace)].
    + rewrite Hempty in Hnl. discriminate Hnl.
    + rewrite Hnl in Hc. injection Hc as <-. discriminate Hspace.
Qed.

(** ** The further properties on concrete inputs *)

Lemma getContainers_lines_witness :
  exists header : string,
    Split (TrimSpace listing) newline = header :: fst (getContainers (listing, None))
    /\ snd (getContainers (listing, None)) = None
    /\ Strings.Join (header :: fst (getContainers (listing, None))) newline
       = TrimSpace listing
    /\ Forall one_line (fst (getContainers (listing, None))).
Proof. apply (getContainers_lines listing). apply Z.leb_le; reflexivity. Defined.

Lemma getContainers_count_witness :
  List.length (fst (getContainers (listing, None))) = count_newlines (TrimSpace listing).
Proof. apply (getContainers_count listing). apply Z.leb_le; reflexivity. Defined.

Lemma getContainers_last_line_not_empty_witness :
  last (fst (getContainers (listing, None))) "" <> "".
Proof.
  apply (getContainers_last_line_not_empty listing).
  - apply Z.leb_le; reflexivity.
  - discriminate.
Defined.


Lemma containerChoice_View_no_cursor_row_witness :
  containerChoice_View colours (initialContainerModel [])
  = ((clear_screen ++ "Choose a container:" ++ newline ++ newline)
     ++ rows_text plain_row [])%string.
Proof.
  apply (containerChoice_View_no_cursor_row colours (initialContainerModel [])).
  - apply Z.leb_le; reflexivity.
  - left. reflexivity.
Defined.


Lemma up_and_down_cancel_out_witness :
  tea.Run three_containers [key "up"; key "down"] = tea.Running three_containers
  /\ tea.Run three_containers [key "down"; key "up"] = tea.Running three_containers
  /\ tea.Run (initialActionModel abc123) [key "up"; key "down"]
     = tea.Running (initialActionModel abc123)
  /\ tea.Run (initialActionModel abc123) [key "down"; key "up"]
     = tea.Running (initialActionModel abc123).
Proof.
  apply (up_and_down_cancel_out three_containers (initialActionModel abc123)).
  - apply Z.leb_le; reflexivity.
  - split; [apply Z.leb_le | apply Z.ltb_lt]; reflexivity.
  - apply Z.leb_le; reflexivity.
  - split; [apply Z.leb_le | apply Z.ltb_lt]; reflexivity.
Defined.

Lemma cursor_after_presses_witness :
  tea.Run three_containers (repeat (key "down") 5)
  = tea.Running (containerChoice.with_cursor three_containers ((2 + 5) mod 3))
  /\ tea.Run three_containers (repeat (key "up") 5)
     = tea.Running (containerChoice.with_cursor three_containers ((2 - 5) mod 3)).
Proof.
  apply (cursor_after_presses three_containers 5).
  - apply Z.leb_le; reflexivity.
  - split; [apply Z.leb_le | apply Z.ltb_lt]; reflexivity.
Defined.

Lemma only_enter_selects_witness :
  (exists (cm' : containerChoice.t) (cmd : option tea.Cmd),
     containerChoice.Update (initialContainerModel []) (tea.KeyMsg "down")
     = Returned (cm', cmd)
     /\ containerChoice.containers cm' = []
     /\ containerChoice.selectedContainer cm' = ""
     /\ (cmd = Some tea.Quit -> cm' = initialContainerModel []))
  /\ (exists (am' : actionChoice.t) (cmd : option tea.Cmd),
        actionChoice.Update (initialActionModel abc123) (tea.KeyMsg "down")
        = Returned (am', cmd)
        /\ actionChoice.actions am' = ["Exit"; "Copy container ID"]
        /\ actionChoice.selectedAction am' = ""
        /\ actionChoice.selectedContainer am' = abc123
        /\ (cmd = Some tea.Quit -> am' = initialActionModel abc123)).
Proof.
  apply (only_enter_selects (initialContainerModel []) (initialActionModel abc123)
           (tea.KeyMsg "down")).
  discriminate.
Defined.

Lemma chooseContainer_returns_a_line_witness :
  chooseContainer ["web"; "db"] [key "up"; key "enter"] = Pending
  \/ (exists err : error,
        In (tea.Fail err) [key "up"; key "enter"]
        /\ chooseContainer ["web"; "db"] [key "up"; key "enter"] = Done ("", Some err))
  \/ chooseContainer ["web"; "db"] [key "up"; key "enter"] = Done ("", None)
  \/ (exists item : string,
        In item ["web"; "db"]
        /\ chooseContainer ["web"; "db"] [key "up"; key "enter"] = Done (item, None)).
Proof.
  apply (chooseContainer_returns_a_line ["web"; "db"] [key "up"; key "enter"]).
  - apply Z.leb_le; reflexivity.
  - discriminate.
Defined.

Lemma chooseContainer_nothing_to_choose_witness :
  (chooseContainer [] [key "down"; key "q"] = Pending
   \/ (exists err : error, chooseContainer [] [key "down"; key "q"] = Done ("", Some err))
   \/ chooseContainer [] [key "down"; key "q"] = Done ("", None))
  /\ chooseContainer [] ([key "down"; key "x"] ++ key "enter" :: [key "q"])
     = Done ("", Some tea.ErrProgramPanic).
Proof.
  apply (chooseContainer_nothing_to_choose [key "down"; key "q"] [key "down"; key "x"]
           [key "q"]).
  reflexivity.
Defined.

Lemma event_failure_is_returned_witness :
  chooseContainer ["web"; "db"] ([key "up"; key "x"] ++ tea.Fail "EOF" :: [key "enter"])
  = Done ("", Some "EOF")
  /\ chooseAction abc123 ([key "up"; key "x"] ++ tea.Fail "EOF" :: [key "enter"])
     = Done ("", Some "EOF").
Proof.
  apply (event_failure_is_returned ["web"; "db"] abc123 [key "up"; key "x"] [key "enter"] "EOF").
  reflexivity.
Defined.

Lemma main_panics_on_cancelled_container_menu_witness :
  main (machine ["whale"] ([key "up"] ++ key "q" :: []) [] working_pbcopy)
  = ([], Abort (IndexOutOfRange 0 0))
  /\ main (machine ["whale"; "--run"] ([key "up"] ++ key "esc" :: []) [] working_pbcopy)
     = ([], Abort (IndexOutOfRange 0 0)).
Proof.
  split.
  - apply (main_panics_on_cancelled_container_menu
             (machine ["whale"] ([key "up"] ++ key "q" :: []) [] working_pbcopy)
             [key "up"] [] "q"); try reflexivity.
    repeat split; reflexivity.
  - apply (main_panics_on_cancelled_container_menu
             (machine ["whale"; "--run"] ([key "up"] ++ key "esc" :: []) [] working_pbcopy)
             [key "up"] [] "esc"); try reflexivity.
    repeat split; reflexivity.
Defined.

Lemma main_exits_on_failed_startup_witness :
  main no_docker = ([Eff (Println "Docker is not installed")], Exit 1).
Proof.
  apply (main_exits_on_failed_startup no_docker (Eff (Println "Docker is not installed"))).
  reflexivity.
Defined.




Lemma main_with_a_flag_resolves_nothing_witness :
  no_pbcopy (fst (main (machine ["whale"; "-r"] [key "up"; key "enter"] [key "enter"]
                                working_pbcopy)))
  /\ forall u : unit,
       snd (main (machine ["whale"; "-r"] [key "up"; key "enter"] [key "enter"]
                          working_pbcopy)) <> Done u.
Proof.
  apply (main_with_a_flag_resolves_nothing
           (machine ["whale"; "-r"] [key "up"; key "enter"] [key "enter"] working_pbcopy)).
  - repeat split; reflexivity.
  - cbn. lia.
Defined.


Lemma main_with_run_flag_prints_the_action_witness :
  main (machine ["whale"; "--run"] [key "up"; key "enter"] [key "enter"] working_pbcopy)
  = ([Eff (Println "Action selected:  Copy container ID")], Exit 0).
Proof.
  apply (main_with_run_flag_prints_the_action
           (machine ["whale"; "--run"] [key "up"; key "enter"] [key "enter"] working_pbcopy)
           "whale" "--run" [] nginx_line nginx_container "Copy container ID");
    try reflexivity.
  repeat split; reflexivity.
Defined.
